(** * exif_detect_wrong_createdate.py: a shallow embedding

    The script walks a per-year directory of pictures and videos, reads the
    creation timestamp stored in each file's metadata and writes two report
    files listing the files whose metadata is missing, unreadable or of the
    wrong year.

    Layout of this development, following the source file top to bottom:
    - Python values, exceptions and string built-ins used by the script;
    - [datetime] and a model of [datetime.strptime] for the directives the
      script uses;
    - the collaborators ([Image.open], [ffmpeg.probe], [os.walk]) as a
      [World] record, and the working directory as a finite map;
    - [MetadataProcessor]: [try_parse_date], [get_creation_date],
      [process_directory];
    - [main] with the built-ins it uses ([int], [os.path.basename],
      [sorted], [str.isdigit]);
    - the theorems.

    Strings are Rocq strings, i.e. sequences of 8-bit characters, read as
    the code points below 256; the character classes of the built-ins
    (digits, whitespace) are given on all of them. Output on stdout
    ([print]) is not modelled: it never influences a returned value or a
    written file. *)

From Stdlib Require Import ZArith Ascii DecimalString DecimalPos DecimalZ.
From stdpp Require Import gmap strings list sorting.

(** ** Python values and exceptions *)

(** The values an EXIF dictionary can hold for a tag: Pillow decodes every
    entry according to the type recorded in the file, so a date tag is a
    [str] when it was stored as ASCII and a [bytes] or [int] object when the
    file stores it with another type. *)
Inductive pyobj : Type :=
  | PyStr (s : string)
  | PyBytes (b : string)
  | PyInt (n : Z).

Global Instance pyobj_eq_dec : EqDecision pyobj.
Proof. solve_decision. Defined.

(** The exception classes that occur; every one derives from [Exception]. *)
Inductive exn : Type :=
  | ValueError
  | TypeError
  | AttributeError
  | OSError
  | ffmpeg_Error
  | OtherException (cls : string).

Global Instance exn_eq_dec : EqDecision exn.
Proof. solve_decision. Defined.

(** A computation that returns a value or raises. *)
Inductive res (A : Type) : Type :=
  | Ret (a : A)
  | Raise (e : exn).
Global Arguments Ret {A} a.
Global Arguments Raise {A} e.

Global Instance res_ret : MRet res := @Ret.
Global Instance res_bind : MBind res := λ A B f m,
  match m with
  | Ret a => f a
  | Raise e => Raise e
  end.

(** ** String built-ins *)

(** [str.lower] on ASCII text. *)
Definition ascii_lower (c : ascii) : ascii :=
  let n := nat_of_ascii c in
  if (65 <=? n) && (n <=? 90) then ascii_of_nat (n + 32) else c.

Fixpoint lower (s : string) : string :=
  match s with
  | EmptyString => EmptyString
  | String c s' => String (ascii_lower c) (lower s')
  end.

(** [s.endswith(suffix)] *)
Definition endswith (s suffix : string) : bool :=
  bool_decide (String.list_ascii_of_string suffix
               `suffix_of` String.list_ascii_of_string s).

(** [s.endswith(tuple)]: true when some member of the tuple is a suffix. *)
Definition endswith_any (s : string) (suffixes : list string) : bool :=
  existsb (endswith s) suffixes.

(** [xs.append(x)] *)
Definition append {A : Type} (xs : list A) (x : A) : list A := xs ++ [x].

(** [str(n)] and [f"{n}"] for an [int]. *)
Definition str (n : Z) : string := NilZero.string_of_int (Z.to_int n).

(** [os.path.join(a, b)] of posixpath. *)
Definition os_path_join (a b : string) : string :=
  if String.prefix "/" b then b
  else if bool_decide (a = "") || endswith a "/" then a +:+ b
  else a +:+ "/" +:+ b.

(** ** Module-level constants (lines 53-55) *)

Definition image_files_with_EXIF_metadata : list string :=
  [".jpg"; ".jpeg"; ".png"; ".tiff"; ".heic"; ".gif"].
Definition video_files_for_ffmpeg : list string :=
  [".mp4"; ".mov"; ".avi"; ".mkv"; ".wmv"; ".flv"].
(** [(".cr2")] is a parenthesised string, not a tuple. *)
Definition ignore_files : string := ".cr2".

(** ** class ProcessingResult(Enum) *)

Inductive ProcessingResult : Type :=
  | VALID_CREATION_TIMESTAMP
  | FAILED_TO_READ
  | NO_METADATA
  | INVALID_TIMESTAMP_FORMAT.

Global Instance ProcessingResult_eq_dec : EqDecision ProcessingResult.
Proof. solve_decision. Defined.

Definition value (r : ProcessingResult) : Z :=
  match r with
  | VALID_CREATION_TIMESTAMP => 1
  | FAILED_TO_READ => 2
  | NO_METADATA => 3
  | INVALID_TIMESTAMP_FORMAT => 4
  end.

Definition name (r : ProcessingResult) : string :=
  match r with
  | VALID_CREATION_TIMESTAMP => "VALID_CREATION_TIMESTAMP"
  | FAILED_TO_READ => "FAILED_TO_READ"
  | NO_METADATA => "NO_METADATA"
  | INVALID_TIMESTAMP_FORMAT => "INVALID_TIMESTAMP_FORMAT"
  end.

(** ** datetime *)

Module Datetime.

Record datetime : Type := mk_datetime {
  year : Z;
  month : Z;
  day : Z;
  hour : Z;
  minute : Z;
  second : Z;
  microsecond : Z
}.

Global Instance datetime_eq_dec : EqDecision datetime.
Proof. solve_decision. Defined.

End Datetime.
Export Datetime.

(** ** A model of [datetime.strptime]

    CPython's [_strptime] turns the format into a regular expression (every
    directive becomes a named group, every run of whitespace becomes [\s+],
    every other character matches itself, ignoring case), matches it against
    the start of the data with the backtracking matcher of [re], requires the
    whole string to be consumed and builds the [datetime] from the groups.
    This model covers the directives the script uses, [%Y %m %d %H %M %S %f],
    with [%%], whitespace and literal characters, for formats in which no
    directive occurs twice. [None] stands for [ValueError]. *)

Module Strptime.

Inductive directive : Type := dY | dm | dd | dH | dM | dS | df.

Global Instance directive_eq_dec : EqDecision directive.
Proof. solve_decision. Defined.

Inductive token : Type :=
  | Directive (d : directive)
  | Whitespace
  | Literal (c : ascii).

(** A character class of the regular expression. *)
Definition cls : Type := ascii → bool.

Definition range (lo hi : ascii) : cls := λ c,
  (nat_of_ascii lo <=? nat_of_ascii c) && (nat_of_ascii c <=? nat_of_ascii hi).
Definition only (x : ascii) : cls := range x x.
Definition digit : cls := range "0" "9".
(** [\s] on 8-bit text: the whitespace of ASCII, NEL and the no-break
    space. *)
Definition space : cls := λ c,
  range "009" "013" c || range "028" "032" c || only "133" c || only "160" c.

Definition directive_of (c : ascii) : option directive :=
  if Ascii.eqb c "Y" then Some dY
  else if Ascii.eqb c "m" then Some dm
  else if Ascii.eqb c "d" then Some dd
  else if Ascii.eqb c "H" then Some dH
  else if Ascii.eqb c "M" then Some dM
  else if Ascii.eqb c "S" then Some dS
  else if Ascii.eqb c "f" then Some df
  else None.

(** [TimeRE.pattern]: [in_space] tells that the previous character was
    whitespace, so that a run of whitespace gives one [\s+]. *)
Fixpoint compile (in_space : bool) (format : string) : option (list token) :=
  match format with
  | EmptyString => Some []
  | String c rest =>
      if Ascii.eqb c "%" then
        match rest with
        | EmptyString => None
        | String k rest' =>
            if Ascii.eqb k "%" then (Literal "%" ::.) <$> compile false rest'
            else d ← directive_of k; (Directive d ::.) <$> compile false rest'
        end
      else if space c then
        if in_space then compile true rest
        else (Whitespace ::.) <$> compile true rest
      else (Literal c ::.) <$> compile false rest
  end.

(** The alternatives of each directive's group, in the order in which the
    matcher tries them; an alternative is a sequence of character classes. *)
Definition alternatives (d : directive) : list (list cls) :=
  match d with
  | dY => [[digit; digit; digit; digit]]
  | dm => [[only "1"; range "0" "2"]; [only "0"; range "1" "9"]; [range "1" "9"]]
  | dd => [[only "3"; range "0" "1"]; [range "1" "2"; digit];
           [only "0"; range "1" "9"]; [range "1" "9"]; [only " "; range "1" "9"]]
  | dH => [[only "2"; range "0" "3"]; [range "0" "1"; digit]; [digit]]
  | dM => [[range "0" "5"; digit]; [digit]]
  | dS => [[only "6"; range "0" "1"]; [range "0" "5"; digit]; [digit]]
  | df => [[digit; digit; digit; digit; digit; digit];
           [digit; digit; digit; digit; digit];
           [digit; digit; digit; digit];
           [digit; digit; digit];
           [digit; digit];
           [digit]]
  end.

(** Match a sequence of classes at the head of [s]: the matched text and
    the rest. *)
Fixpoint take_classes (cs : list cls) (s : string) : option (string * string) :=
  match cs with
  | [] => Some (EmptyString, s)
  | k :: cs' =>
      match s with
      | EmptyString => None
      | String c s' =>
          if k c then
            '(m, r) ← take_classes cs' s'; Some (String c m, r)
          else None
      end
  end.

(** The ways [\s+] can match at the head of [s], longest first. *)
Fixpoint take_spaces (s : string) : list string :=
  match s with
  | EmptyString => []
  | String c s' => if space c then take_spaces s' ++ [s'] else []
  end.

Definition found_dict : Type := list (directive * string).

(** The backtracking match of the compiled format at the start of [s]:
    the groups of the first match in the matcher's order and the
    unconsumed rest. *)
Fixpoint regex_match (ts : list token) (s : string) (found : found_dict)
  : option (found_dict * string) :=
  match ts with
  | [] => Some (found, s)
  | Directive d :: ts' =>
      list_find (λ o : option (found_dict * string), is_Some o)
        ((λ cs, '(m, r) ← take_classes cs s; regex_match ts' r ((d, m) :: found))
           <$> alternatives d)
      ≫= snd
  | Whitespace :: ts' =>
      list_find (λ o : option (found_dict * string), is_Some o)
        ((λ r, regex_match ts' r found) <$> take_spaces s)
      ≫= snd
  | Literal c :: ts' =>
      match s with
      | EmptyString => None
      | String k s' =>
          if Ascii.eqb (ascii_lower c) (ascii_lower k)
          then regex_match ts' s' found else None
      end
  end.

(** [int(text)] for a group's text (digits, possibly after a space). *)
Fixpoint int_acc (acc : Z) (s : string) : Z :=
  match s with
  | EmptyString => acc
  | String c s' =>
      if digit c then int_acc (10 * acc + Z.of_nat (nat_of_ascii c - 48)) s'
      else int_acc acc s'
  end.
Definition int (s : string) : Z := int_acc 0 s.

Definition group (found : found_dict) (d : directive) : option string :=
  (snd ∘ snd) <$> list_find (λ p : directive * string, p.1 = d) found.

Definition is_leap (y : Z) : bool :=
  ((y mod 4 =? 0) && negb (y mod 100 =? 0) || (y mod 400 =? 0))%Z.

Definition days_in_month (y m : Z) : Z :=
  if (m =? 2)%Z then (if is_leap y then 29 else 28)
  else if ((m =? 4) || (m =? 6) || (m =? 9) || (m =? 11))%Z then 30
  else 31.

(** [s += "0" * (6 - len(s))] *)
Definition pad6 (s : string) : string :=
  s +:+ String.string_of_list_ascii (replicate (6 - String.length s) "0"%char).

Definition strptime (data_string format : string) : option datetime :=
  ts ← compile false format;
  '(found, rest) ← regex_match ts data_string [];
  if bool_decide (rest = EmptyString) then
    let y := from_option int 1900%Z (group found dY) in
    let m := from_option int 1%Z (group found dm) in
    let d := from_option int 1%Z (group found dd) in
    let H := from_option int 0%Z (group found dH) in
    let M := from_option int 0%Z (group found dM) in
    let S := from_option int 0%Z (group found dS) in
    let f := from_option (int ∘ pad6) 0%Z (group found df) in
    if ((1 <=? y) && (y <=? 9999) && (d <=? days_in_month y m) && (S <=? 59))%Z
    then Some (mk_datetime y m d H M S f)
    else None
  else None.

End Strptime.

(** ** The collaborators *)

(** What [img._getexif()] gives: [None] or a dictionary from tag id to
    value; the call may raise (for instance on an image class without that
    method). *)
Record Image : Type := {
  getexif : res (option (gmap Z pyobj))
}.

(** The JSON object [ffmpeg.probe] returns: an optional ["format"] object
    holding an optional ["tags"] object, a dictionary of strings. *)
Record ProbeFormat : Type := {
  format_tags : option (gmap string string)
}.
Record Probe : Type := {
  probe_format : option ProbeFormat
}.

(** The media tree as the script observes it. *)
Record World : Type := {
  (** [Image.open(file_path)] *)
  Image_open : string → res Image;
  (** [ffmpeg.probe(file_path)] *)
  ffmpeg_probe : string → res Probe;
  (** [os.walk(search_path)]: the triples [(root, dirs, files)] in the order
      in which they are produced. *)
  os_walk : string → list (string * list string * list string)
}.

(** ** The working directory, where the reports are written

    The reports go to the working directory, which is kept apart from the
    media tree: writing a report does not change what the walk and the
    collaborators see. A file is open for writing from [open(name, "w")],
    which creates or truncates it, to the end of the [with] block. The
    file object is buffered: [f.write] holds text back and hands it to the
    device when the buffer is full and, at the latest, when the file is
    closed. [quota] counts the characters the device still takes before it
    fails ([None]: it never fails); text that does not fit is cut where the
    quota ends and the call that handed it over raises [OSError]. *)
Record Disk : Type := {
  files : gmap string string;
  quota : option nat
}.

Definition IO (A : Type) : Type := Disk → res A * Disk.

Global Instance IO_ret : MRet IO := λ A a d, (Ret a, d).
Global Instance IO_bind : MBind IO := λ A B f m d,
  match m d with
  | (Ret a, d') => f a d'
  | (Raise e, d') => (Raise e, d')
  end.

(** A computation that does not touch the disk. *)
Definition lift {A : Type} (r : res A) : IO A := λ d, (r, d).

(** [open(name, "w")] *)
Definition open_w (name : string) : IO unit := λ d,
  (Ret (), {| files := <[name := ""]> (files d); quota := quota d |}).

(** [io.DEFAULT_BUFFER_SIZE]: what a file object holds back at most. *)
Definition DEFAULT_BUFFER_SIZE : nat := N.to_nat 8192.

(** [s[:n]] *)
Fixpoint first_chars (n : nat) (s : string) : string :=
  match n, s with
  | S n', String c s' => String c (first_chars n' s')
  | _, _ => EmptyString
  end.

(** The device is handed [text] for the end of the file [name]: it takes
    all of it when the quota allows, and otherwise the characters that fit,
    raising [OSError]. *)
Definition device_write (name text : string) : IO unit := λ d,
  match quota d with
  | None =>
      (Ret (), {| files := alter (λ old, old +:+ text) name (files d);
                  quota := None |})
  | Some q =>
      if String.length text <=? q then
        (Ret (), {| files := alter (λ old, old +:+ text) name (files d);
                    quota := Some (q - String.length text) |})
      else
        (Raise OSError,
         {| files := alter (λ old, old +:+ first_chars q text) name (files d);
            quota := Some 0 |})
  end.

(** [f.write(text)] on the file object opened as [name] that holds
    [pending] back: the text joins the buffer, which goes to the device
    once it exceeds its size. The value is what the object holds back
    afterwards. *)
Definition write (name pending text : string) : IO string :=
  let pending := pending +:+ text in
  if DEFAULT_BUFFER_SIZE <? String.length pending
  then device_write name pending ;; mret ""
  else mret pending.

(** [f.close()], at the end of the [with] block: what is held back goes to
    the device. *)
Definition close (name pending : string) : IO unit :=
  device_write name pending.

(** [os.path.exists(name)] *)
Definition os_path_exists (name : string) : IO bool := λ d,
  (Ret (bool_decide (is_Some (files d !! name))), d).

(** [os.remove(name)] *)
Definition os_remove (name : string) : IO unit := λ d,
  match files d !! name with
  | Some _ => (Ret (), {| files := delete name (files d); quota := quota d |})
  | None => (Raise OSError, d)
  end.

(** [for x in xs: body(x)] *)
Fixpoint for_each {A : Type} (xs : list A) (body : A → IO unit) : IO unit :=
  match xs with
  | [] => mret ()
  | x :: xs' => body x ;; for_each xs' body
  end.

(** [for x in xs: body(x)] where the body changes an object [s] that the
    loop does not own, here the open file. *)
Fixpoint for_each_on {A S : Type} (xs : list A) (body : S → A → IO S) (s : S)
  : IO S :=
  match xs with
  | [] => mret s
  | x :: xs' => s' ← body s x; for_each_on xs' body s'
  end.

(** ** class MetadataProcessor *)

Record MetadataProcessor : Type := {
  exif_DateTimeOriginal_tag : Z;
  exit_DateTimeDigitized_tag : Z;
  exif_DateTime_tag : Z;
  verbose : Z
}.

(** [__init__] (lines 67-84): the three tag ids start at 0 and are looked up
    in [ExifTags.TAGS], given here by its items. *)
Definition init_step (self : MetadataProcessor) (item : Z * string)
  : MetadataProcessor :=
  let '(tag, value) := item in
  if bool_decide (value = "DateTimeOriginal") then
    {| exif_DateTimeOriginal_tag := tag;
       exit_DateTimeDigitized_tag := exit_DateTimeDigitized_tag self;
       exif_DateTime_tag := exif_DateTime_tag self;
       verbose := verbose self |}
  else if bool_decide (value = "DateTimeDigitized") then
    {| exif_DateTimeOriginal_tag := exif_DateTimeOriginal_tag self;
       exit_DateTimeDigitized_tag := tag;
       exif_DateTime_tag := exif_DateTime_tag self;
       verbose := verbose self |}
  else if bool_decide (value = "DateTime") then
    {| exif_DateTimeOriginal_tag := exif_DateTimeOriginal_tag self;
       exit_DateTimeDigitized_tag := exit_DateTimeDigitized_tag self;
       exif_DateTime_tag := tag;
       verbose := verbose self |}
  else self.

Definition init (TAGS : list (Z * string)) (verbose : Z) : MetadataProcessor :=
  fold_left init_step TAGS
    {| exif_DateTimeOriginal_tag := 0;
       exit_DateTimeDigitized_tag := 0;
       exif_DateTime_tag := 0;
       verbose := verbose |}.

(** The entries of Pillow's [ExifTags.TAGS] that [__init__] looks for. *)
Definition PIL_TAGS : list (Z * string) :=
  [(306, "DateTime"); (36867, "DateTimeOriginal"); (36868, "DateTimeDigitized")]%Z.

(** The outcome of the extraction: [Tuple[ProcessingResult, datetime]]. *)
Definition outcome : Type := ProcessingResult * option datetime.

(** Where the [try] block of [get_creation_date] ends: at a [return], or at
    its end with the candidate and the formats to try. *)
Inductive gathered : Type :=
  | Return (o : outcome)
  | FallThrough (date_str : pyobj) (date_formats : list string).

Section Extractor.

(** [datetime.strptime] on a [str]: the parsed value, or [None] for
    [ValueError], the only exception it raises on the formats below. The
    extractor is verified for any such function; [Strptime.strptime] is
    the one the examples run. *)
Context (strptime : string → string → option datetime).

(** [datetime.strptime(date_str, date_format)]: any argument that is not a
    [str] is a [TypeError]. *)
Definition datetime_strptime (date_str : pyobj) (date_format : string)
  : res datetime :=
  match date_str with
  | PyStr s =>
      match strptime s date_format with
      | Some d => Ret d
      | None => Raise ValueError
      end
  | _ => Raise TypeError
  end.

(** [try_parse_date] (lines 86-92) *)
Definition try_parse_date (date_str : pyobj) (date_format : string)
  : res (option datetime) :=
  match datetime_strptime date_str date_format with
  | Ret date_parsed => Ret (Some date_parsed)
  | Raise ValueError => Ret None
  | Raise e => Raise e
  end.

(** The loop of lines 118-123 over the remaining keys: the first key found
    in [exif_data] sets [date_str], appends the EXIF format and breaks. *)
Fixpoint scan_keys (keys : list Z) (exif_data : gmap Z pyobj)
    (date_str : pyobj) (date_formats : list string) : pyobj * list string :=
  match keys with
  | [] => (date_str, date_formats)
  | key :: keys' =>
      match exif_data !! key with
      | Some v => (v, append date_formats "%Y:%m:%d %H:%M:%S")
      | None => scan_keys keys' exif_data date_str date_formats
      end
  end.

(** The body of the [try] block (lines 106-151). *)
Definition try_block (self : MetadataProcessor) (w : World) (file_path : string)
  : res gathered :=
  let date_str := PyStr "" in
  let date_formats := [] in
  if endswith_any (lower file_path) image_files_with_EXIF_metadata then
    img ← Image_open w file_path;
    exif_data ← getexif img;
    match exif_data with
    | None => Ret (Return (NO_METADATA, None))
    | Some exif_data =>
        if bool_decide (exif_data = ∅) then Ret (Return (NO_METADATA, None))
        else
          let '(date_str, date_formats) :=
            scan_keys [exif_DateTimeOriginal_tag self;
                       exit_DateTimeDigitized_tag self;
                       exif_DateTime_tag self]
                      exif_data date_str date_formats in
          if bool_decide (date_str = PyStr "")
          then Ret (Return (NO_METADATA, None))
          else Ret (FallThrough date_str date_formats)
    end
  else if endswith_any (lower file_path) video_files_for_ffmpeg then
    probe ← ffmpeg_probe w file_path;
    match probe_format probe ≫= format_tags with
    | Some tags =>
        match tags !! "creation_time" with
        | Some creation_time =>
            let date_str := PyStr creation_time in
            let date_formats := append date_formats "%Y-%m-%dT%H:%M:%S.%fZ" in
            let date_formats := append date_formats "%Y-%m-%d %H:%M:%S.%fZ" in
            let date_formats := append date_formats "%Y-%m-%d %H:%M:%S" in
            let date_formats := append date_formats "%Y:%m:%d %H:%M:%S" in
            Ret (FallThrough date_str date_formats)
        | None => Ret (Return (NO_METADATA, None))
        end
    | None => Ret (Return (NO_METADATA, None))
    end
  else Ret (Return (FAILED_TO_READ, None)).

(** The loop of lines 161-165: [Some d] when it returns at line 164 with
    [d], [None] when it runs to its end. *)
Fixpoint parse_dates (date_str : pyobj) (date_formats : list string)
  : res (option datetime) :=
  match date_formats with
  | [] => Ret None
  | date_format :: rest =>
      date_parsed ← try_parse_date date_str date_format;
      match date_parsed with
      | Some d => Ret (Some d)
      | None => parse_dates date_str rest
      end
  end.

(** [get_creation_date] (lines 94-170) *)
Definition get_creation_date (self : MetadataProcessor) (w : World)
    (file_path : string) : res outcome :=
  match try_block self w file_path with
  | Raise ffmpeg_Error => Ret (FAILED_TO_READ, None)
  | Raise _ => Ret (FAILED_TO_READ, None)
  | Ret (Return o) => Ret o
  | Ret (FallThrough date_str date_formats) =>
      date_parsed ← parse_dates date_str date_formats;
      match date_parsed with
      | Some d => Ret (VALID_CREATION_TIMESTAMP, Some d)
      | None => Ret (INVALID_TIMESTAMP_FORMAT, None)
      end
  end.

End Extractor.

(** The three lists [process_directory] fills (lines 174-176). *)
Record Buckets : Type := {
  matching_files : list string;
  non_matching_files : list string;
  failed_to_read_files : list string
}.

Definition empty_buckets : Buckets :=
  {| matching_files := []; non_matching_files := []; failed_to_read_files := [] |}.

(** [for x in xs] with a body that may raise, threading the loop state. *)
Fixpoint for_fold {A B : Type} (body : B → A → res B) (xs : list A) (b : B)
  : res B :=
  match xs with
  | [] => Ret b
  | x :: xs' => b' ← body b x; for_fold body xs' b'
  end.

(** The newline character of ["\n"]. *)
Definition nl : string := String "010"%char EmptyString.

Section Classifier.

Context (strptime : string → string → option datetime).

(** The body of the inner loop (lines 180-196) for one [file_path]. *)
Definition classify_file (self : MetadataProcessor) (w : World) (year : Z)
    (b : Buckets) (file_path : string) : res Buckets :=
  if endswith (lower file_path) ignore_files then Ret b
  else
    '(processing_result, creation_date) ←
      get_creation_date strptime self w file_path;
    if bool_decide (processing_result = VALID_CREATION_TIMESTAMP) then
      match creation_date with
      | None => Raise AttributeError
      | Some d =>
          if bool_decide (Datetime.year d = year) then
            Ret {| matching_files := append (matching_files b) file_path;
                   non_matching_files := non_matching_files b;
                   failed_to_read_files := failed_to_read_files b |}
          else
            Ret {| matching_files := matching_files b;
                   non_matching_files := append (non_matching_files b) file_path;
                   failed_to_read_files := failed_to_read_files b |}
      end
    else if bool_decide (processing_result = NO_METADATA) then
      Ret {| matching_files := matching_files b;
             non_matching_files := append (non_matching_files b) file_path;
             failed_to_read_files := failed_to_read_files b |}
    else
      Ret {| matching_files := matching_files b;
             non_matching_files := non_matching_files b;
             failed_to_read_files :=
               append (failed_to_read_files b)
                 (file_path +:+ " (error code: " +:+ name processing_result +:+ ")") |}.

(** The two nested loops of lines 178-196. *)
Definition walk_loop (self : MetadataProcessor) (w : World)
    (search_path : string) (year : Z) : res Buckets :=
  for_fold
    (λ b '(root, _, files),
       for_fold
         (λ b name, classify_file self w year b (os_path_join root name))
         files b)
    (os_walk w search_path) empty_buckets.

(** Lines 201-213 and again lines 215-227: write the list, one entry per
    line, or remove the file left by an earlier run. The [with] block
    closes the file when the loop is over; when a [write] raises inside
    the loop the device has just refused text and takes none of what is
    still held back, so leaving the block changes nothing more. *)
Definition write_or_remove (output_file : string) (entries : list string)
  : IO unit :=
  if 0 <? length entries then
    open_w output_file ;;
    pending ← for_each_on entries
                 (λ pending file, write output_file pending (file +:+ nl)) "";
    close output_file pending
  else
    output_file_exists ← os_path_exists output_file;
    if output_file_exists : bool then os_remove output_file else mret ().

(** [process_directory] (lines 173-227) *)
Definition process_directory (self : MetadataProcessor) (w : World)
    (search_path : string) (year : Z) : IO unit :=
  b ← lift (walk_loop self w search_path year);
  write_or_remove (str year +:+ "_non_matching_files.txt")
    (non_matching_files b) ;;
  write_or_remove (str year +:+ "_failed_to_read_files.txt")
    (failed_to_read_files b).

End Classifier.

(** ** The command line (lines 229-281) *)

(** [fmap] for computations that may raise. *)
Global Instance res_fmap : FMap res := λ A B f m,
  match m with
  | Ret a => Ret (f a)
  | Raise e => Raise e
  end.

(** The characters [str.isdigit] takes as digits: besides [0] to [9] the
    superscripts two, three and one, which are digits but no decimal
    digits. *)
Definition unicode_digit (c : ascii) : bool :=
  Strptime.digit c || Strptime.only "178" c || Strptime.only "179" c
  || Strptime.only "185" c.

(** [s.isdigit()]: at least one character, all of them digits. *)
Definition isdigit (s : string) : bool :=
  negb (bool_decide (s = "")) &&
  forallb unicode_digit (String.list_ascii_of_string s).

(** [len(s)] *)
Definition len (s : string) : nat := String.length s.

(** The whitespace [int] skips around a literal: that of ASCII, NEL and
    the no-break space, but not the separators 28 to 31. *)
Definition int_space (c : ascii) : bool :=
  Strptime.range "009" "013" c || Strptime.only " " c
  || Strptime.only "133" c || Strptime.only "160" c.

(** The argument of [int] without the whitespace at its start, at its end,
    and at both. *)
Fixpoint int_lstrip (s : string) : string :=
  match s with
  | EmptyString => EmptyString
  | String c s' => if int_space c then int_lstrip s' else s
  end.

Fixpoint int_rstrip (s : string) : string :=
  match s with
  | EmptyString => EmptyString
  | String c s' =>
      match int_rstrip s' with
      | EmptyString => if int_space c then EmptyString else String c EmptyString
      | kept => String c kept
      end
  end.

Definition int_strip (s : string) : string := int_rstrip (int_lstrip s).

(** The digits of an integer literal: a digit first, then digits with
    single underscores between them; the underscores are dropped. *)
Fixpoint literal_digits (after_digit : bool) (s : string) : option string :=
  match s with
  | EmptyString => if after_digit then Some EmptyString else None
  | String c s' =>
      if Ascii.eqb c "_" then
        if after_digit then literal_digits false s' else None
      else if Strptime.digit c then String c <$> literal_digits true s'
      else None
  end.

Definition unsigned_literal (s : string) : res Z :=
  match literal_digits false s ≫= NilZero.uint_of_string with
  | Some d => Ret (Z.of_uint d)
  | None => Raise ValueError
  end.

(** [int(s)] for a [str]: surrounding whitespace, an optional sign and
    decimal digits; anything else, a superscript digit too, is a
    [ValueError]. *)
Definition int (s : string) : res Z :=
  match int_strip s with
  | String c s' =>
      if Ascii.eqb c "-" then Z.opp <$> unsigned_literal s'
      else if Ascii.eqb c "+" then unsigned_literal s'
      else unsigned_literal (String c s')
  | EmptyString => Raise ValueError
  end.

(** [os.path.basename(p)] of posixpath: what follows the last slash.
    [cur] is the part read since the last slash. *)
Fixpoint basename_from (cur p : string) : string :=
  match p with
  | EmptyString => cur
  | String c p' =>
      if Ascii.eqb c "/" then basename_from EmptyString p'
      else basename_from (cur +:+ String c EmptyString) p'
  end.

Definition os_path_basename (p : string) : string := basename_from "" p.

(** [sorted(xs)] for a list of [str]: ascending by code points. *)
Definition sorted (xs : list string) : list string := merge_sort String.le xs.

(** The result of [parser.parse_args()]. *)
Record Namespace : Type := {
  args_verbose : option Z;
  args_year : option Z;
  args_path : string
}.

(** What [main] asks about the media tree. *)
Record Tree : Type := {
  (** [os.path.isfile(path)] *)
  os_path_isfile : string → bool;
  (** [os.path.exists(path)] for a path of the tree *)
  path_exists : string → bool;
  (** [os.listdir(path)], which raises when there is no such directory *)
  os_listdir : string → res (list string)
}.

Section Main.

Context (TAGS : list (Z * string)).
Context (strptime : string → string → option datetime).

(** Lines 257-271: the directories to process, or [None] where [main]
    returns at line 261. A year of 0 is false in the test of line 257. *)
Definition selected_directories (t : Tree) (args : Namespace)
  : res (option (list string)) :=
  let all_years :=
    names ← os_listdir t (args_path args);
    Ret (Some (os_path_join (args_path args)
                 <$> filter (λ dirname, isdigit dirname = true ∧ len dirname = 4)
                       (sorted names))) in
  match args_year args with
  | Some year =>
      if bool_decide (year ≠ 0%Z) then
        let chosen_path := os_path_join (args_path args) (str year) in
        if negb (path_exists t chosen_path) then Ret None
        else Ret (Some [chosen_path])
      else all_years
  | None => all_years
  end.

(** [main] (lines 229-281) *)
Definition main (w : World) (t : Tree) (args : Namespace) : IO unit :=
  let verbosity_level := default 0%Z (args_verbose args) in
  if os_path_isfile t (args_path args) then
    let pp := init TAGS verbosity_level in
    '(processing_result, creation_date) ←
      lift (get_creation_date strptime pp w (args_path args));
    if bool_decide (processing_result = VALID_CREATION_TIMESTAMP) then
      match creation_date with
      | Some _ => mret ()
      | None => lift (Raise AttributeError)
      end
    else mret ()
  else
    selected ← lift (selected_directories t args);
    match selected with
    | None => mret ()
    | Some selected_directories =>
        let pp := init TAGS verbosity_level in
        for_each (sorted selected_directories) (λ full_dir_path,
          let dirname := os_path_basename full_dir_path in
          year_for_path ← lift (int dirname);
          process_directory strptime pp w full_dir_path year_for_path)
    end.

End Main.

(** * Vocabulary of the statements *)

(** Two strings one of which is a suffix of the other. *)
Definition comparable (a b : string) : bool := endswith a b || endswith b a.

(** The candidate of an image: the value of the first date tag present, in
    the order DateTimeOriginal, DateTimeDigitized, DateTime. *)
Definition image_candidate (self : MetadataProcessor) (exif_data : gmap Z pyobj)
  : option pyobj :=
  match exif_data !! exif_DateTimeOriginal_tag self with
  | Some v => Some v
  | None =>
      match exif_data !! exit_DateTimeDigitized_tag self with
      | Some v => Some v
      | None => exif_data !! exif_DateTime_tag self
      end
  end.

(** The [creation_time] tag of the format-level tag block, when both are
    there. *)
Definition creation_time (probe : Probe) : option string :=
  match probe_format probe with
  | Some fmt =>
      match format_tags fmt with
      | Some tags => tags !! "creation_time"
      | None => None
      end
  | None => None
  end.

(** The formats [get_creation_date] passes to the parser. *)
Definition exif_format : string := "%Y:%m:%d %H:%M:%S".
Definition video_formats : list string :=
  ["%Y-%m-%dT%H:%M:%S.%fZ"; "%Y-%m-%d %H:%M:%S.%fZ";
   "%Y-%m-%d %H:%M:%S"; "%Y:%m:%d %H:%M:%S"].

(** A world all of whose EXIF values are [str] objects. *)
Definition str_valued (w : World) : Prop :=
  ∀ file_path img exif_data key v,
    Image_open w file_path = Ret img →
    getexif img = Ret (Some exif_data) →
    exif_data !! key = Some v →
    ∃ s, v = PyStr s.

(** ** The classifier and the report files *)

(** The buckets of the classifier and the table that fills them: a valid
    timestamp of the target year is matching, a valid timestamp of another
    year and missing metadata are non-matching, the two remaining results
    are failures. A valid result without a timestamp has no bucket. *)
Inductive bucket : Type := Matching | NonMatching | Failed.

Global Instance bucket_eq_dec : EqDecision bucket.
Proof. solve_decision. Defined.

Definition bucket_of (targetYear : Z) (o : outcome) : option bucket :=
  match o with
  | (VALID_CREATION_TIMESTAMP, Some ts) =>
      if bool_decide (Datetime.year ts = targetYear)
      then Some Matching else Some NonMatching
  | (VALID_CREATION_TIMESTAMP, None) => None
  | (NO_METADATA, _) => Some NonMatching
  | (FAILED_TO_READ, _) => Some Failed
  | (INVALID_TIMESTAMP_FORMAT, _) => Some Failed
  end.

(** The paths the walk visits, in its order, and those that are not
    skipped for their extension. *)
Definition walked_paths (w : World) (search_path : string) : list string :=
  concat ((λ t : string * list string * list string,
             os_path_join t.1.1 <$> t.2) <$> os_walk w search_path).

Definition processed_paths (w : World) (search_path : string) : list string :=
  filter (λ p, endswith (lower p) ignore_files = false)
    (walked_paths w search_path).

(** The extractor's outcome for [file_path] puts it in bucket [k]. *)
Definition lands_in (strptime : string → string → option datetime)
    (self : MetadataProcessor) (w : World) (targetYear : Z) (k : bucket)
    (file_path : string) : Prop :=
  ∃ o, get_creation_date strptime self w file_path = Ret o ∧
       bucket_of targetYear o = Some k.

Global Instance lands_in_dec strptime self w targetYear k file_path :
  Decision (lands_in strptime self w targetYear k file_path).
Proof.
  unfold lands_in.
  destruct (get_creation_date strptime self w file_path) as [o|e].
  - destruct (decide (bucket_of targetYear o = Some k)) as [Hk|Hk].
    + left. by exists o.
    + right. intros (o' & [= <-] & ?). done.
  - right. intros (o' & [=] & _).
Defined.

(** The entry of a failed file: its path annotated with the result name. *)
Definition annotated (strptime : string → string → option datetime)
    (self : MetadataProcessor) (w : World) (file_path : string) : string :=
  match get_creation_date strptime self w file_path with
  | Ret (r, _) => file_path +:+ " (error code: " +:+ name r +:+ ")"
  | Raise _ => file_path
  end.

(** The text of a report: every entry followed by a newline, in order. *)
Definition lines_text (entries : list string) : string :=
  foldr (λ entry text, entry +:+ nl +:+ text) "" entries.

(** How many of [n] characters the device takes under a quota. *)
Definition written (quota : option nat) (n : nat) : nat :=
  match quota with
  | None => n
  | Some q => q `min` n
  end.

(** The report of [entries] in place in a directory: the file holds their
    text, or does not exist when there are none. *)
Definition report (output_file : string) (entries : list string)
    (fs : gmap string string) : gmap string string :=
  match entries with
  | [] => delete output_file fs
  | _ => <[output_file := lines_text entries]> fs
  end.

(** The files left by one run from the directory content [fs], on a
    device that does not fail. *)
Definition run (strptime : string → string → option datetime)
    (self : MetadataProcessor) (w : World) (search_path : string) (year : Z)
    (fs : gmap string string) : gmap string string :=
  files (process_directory strptime self w search_path year
           {| files := fs; quota := None |}).2.

(** ** A small archive to run the script on *)

Definition example_self : MetadataProcessor := init PIL_TAGS 0.

Definition example_exif (file_path : string) : res Image :=
  if bool_decide (file_path = "2020/a.jpg") then
    Ret {| getexif := Ret (Some {[ 36867%Z := PyStr "2019:07:04 10:15:00" ]}) |}
  else if bool_decide (file_path = "2020/b.jpg") then
    Ret {| getexif := Ret None |}
  else if bool_decide (file_path = "2020/c.JPG") then
    Ret {| getexif := Ret (Some {[ 36867%Z := PyBytes "2020:07:04 10:15:00" ]}) |}
  else if bool_decide (file_path = "2020/d.png") then
    Ret {| getexif := Ret (Some {[ 36867%Z := PyStr "";
                                   306%Z := PyStr "2020:01:01 00:00:00" ]}) |}
  else Raise OSError.

Definition example_probe (file_path : string) : res Probe :=
  if bool_decide (file_path = "2020/v.mp4") then
    Ret {| probe_format := Some {| format_tags :=
             Some {[ "creation_time" := "2020-03-01T00:00:00.000000Z" ]} |} |}
  else if bool_decide (file_path = "2020/w.avi") then
    Ret {| probe_format := Some {| format_tags :=
             Some {[ "creation_time" := "04/07/2021" ]} |} |}
  else Raise ffmpeg_Error.

(** Directory [2020] with two pictures, two videos, an unsupported file and
    a raw file. *)
Definition example_world : World := {|
  Image_open := example_exif;
  ffmpeg_probe := example_probe;
  os_walk search_path :=
    if bool_decide (search_path = "2020") then
      [("2020", [], ["a.jpg"; "b.jpg"; "v.mp4"; "w.avi"; "x.bmp"; "y.cr2"])]
    else []
|}.

(** An archive in which every picture carries the same, well-typed EXIF
    dictionary and no video can be probed. *)
Definition text_world : World := {|
  Image_open _ :=
    Ret {| getexif := Ret (Some {[ 36867%Z := PyStr "2019:07:04 10:15:00" ]}) |};
  ffmpeg_probe _ := Raise ffmpeg_Error;
  os_walk _ := []
|}.

(** Every character of [s] is in the class [P]. *)
Definition chars_in (P : ascii → bool) (s : string) : bool :=
  forallb P (String.list_ascii_of_string s).

(** The name of a year directory: four characters, all of them digits for
    [isdigit]. *)
Definition year_name (dirname : string) : Prop :=
  isdigit dirname = true ∧ len dirname = 4.

(** The year [main] derives from a directory path ([0] where [int] would
    raise). *)
Definition year_for_path (full_dir_path : string) : Z :=
  match int (os_path_basename full_dir_path) with
  | Ret year => year
  | Raise _ => 0%Z
  end.

(** A media tree with the year directories 2020 and 2021, a four-digit
    directory with leading zeros, other entries and one loose picture. *)
Definition example_tree : Tree := {|
  os_path_isfile p := bool_decide (p = "base/f.jpg");
  path_exists p := bool_decide (p = "base/2020");
  os_listdir p :=
    if bool_decide (p = "base")
    then Ret ["2021"; "notes"; "0042"; "2020"; "20"; "12345"]
    else Raise OSError
|}.

(** [str.isdigit] holds of a name of four superscript twos. *)
Definition superscript_name : string :=
  String "178" (String "178" (String "178" (String "178" EmptyString))).

(** A media tree whose base directory holds the year directory 2020 and a
    directory named with superscript digits. *)
Definition superscript_tree : Tree := {|
  os_path_isfile p := false;
  path_exists p := bool_decide (p = "base/2020");
  os_listdir p :=
    if bool_decide (p = "base")
    then Ret [superscript_name; "2020"]
    else Raise OSError
|}.

(** * Properties *)

(** Reduce a bind of [res] whose first computation is known. *)
Ltac run_bind := unfold mbind, mret, res_bind, res_ret; cbv beta iota.

(** ** File kinds *)

Lemma endswith_suffix (s x : string) :
  endswith s x = true ↔
  String.list_ascii_of_string x `suffix_of` String.list_ascii_of_string s.
Proof. unfold endswith. apply bool_decide_eq_true. Qed.

Lemma endswith_comparable (s a b : string) :
  endswith s a = true → endswith s b = true → comparable a b = true.
Proof.
  rewrite !endswith_suffix. intros Ha Hb. unfold comparable.
  destruct (suffix_weak_total _ _ _ Ha Hb) as [H | H];
    apply endswith_suffix in H; rewrite H; [apply orb_true_r | done].
Qed.

Lemma extensions_incomparable :
  forallb (λ a, forallb (λ b, negb (comparable a b)) video_files_for_ffmpeg)
    image_files_with_EXIF_metadata = true.
Proof. vm_compute. reflexivity. Qed.

(** A path with a video extension does not have an image extension, so the
    [elif] of line 129 is reached. *)
Lemma video_not_image (s : string) :
  endswith_any s video_files_for_ffmpeg = true →
  endswith_any s image_files_with_EXIF_metadata = false.
Proof.
  intros Hv. destruct (endswith_any s image_files_with_EXIF_metadata) eqn:Hi; [|done].
  apply existsb_exists in Hv as (b & Hb & Hsb).
  apply existsb_exists in Hi as (a & Ha & Hsa).
  pose proof extensions_incomparable as H.
  rewrite forallb_forall in H. specialize (H a Ha).
  rewrite forallb_forall in H. specialize (H b Hb).
  rewrite (endswith_comparable s a b Hsa Hsb) in H. discriminate.
Qed.

(** ** The timestamp parser *)

Section ParserFacts.

Context (strptime : string → string → option datetime).

Lemma try_parse_date_str (s date_format : string) :
  try_parse_date strptime (PyStr s) date_format = Ret (strptime s date_format).
Proof.
  unfold try_parse_date, datetime_strptime.
  by destruct (strptime s date_format).
Qed.

Lemma try_parse_date_not_str (v : pyobj) (date_format : string) :
  (∀ s, v ≠ PyStr s) →
  try_parse_date strptime v date_format = Raise TypeError.
Proof. intros Hv. destruct v as [s| |]; [by destruct (Hv s)|done..]. Qed.

Lemma parse_dates_cons (s f : string) (fs : list string) :
  parse_dates strptime (PyStr s) (f :: fs) =
  match strptime s f with
  | Some d => Ret (Some d)
  | None => parse_dates strptime (PyStr s) fs
  end.
Proof. simpl. rewrite try_parse_date_str. done. Qed.

(** On a [str] the loop never raises. *)
Lemma parse_dates_str_returns (s : string) (fs : list string) :
  ∃ o, parse_dates strptime (PyStr s) fs = Ret o.
Proof.
  induction fs as [|f fs IH]; [by eexists|].
  rewrite parse_dates_cons. destruct (strptime s f); eauto.
Qed.

(** The loop runs to its end exactly when every format fails. *)
Lemma parse_dates_none (s : string) (fs : list string) :
  parse_dates strptime (PyStr s) fs = Ret None ↔
  Forall (λ f, strptime s f = None) fs.
Proof.
  induction fs as [|f fs IH]; [by split; [constructor|]|].
  rewrite parse_dates_cons, Forall_cons.
  destruct (strptime s f) eqn:Hf.
  - split; [discriminate | intros [? _]; discriminate].
  - rewrite IH. split; [by split | by intros [_ ?]].
Qed.

(** It returns [d] exactly when [d] is the parse of the first format that
    succeeds. *)
Lemma parse_dates_some (s : string) (fs : list string) (d : datetime) :
  parse_dates strptime (PyStr s) fs = Ret (Some d) ↔
  ∃ failed f rest,
    fs = failed ++ f :: rest ∧
    Forall (λ g, strptime s g = None) failed ∧
    strptime s f = Some d.
Proof.
  induction fs as [|f fs IH].
  - split; [discriminate | intros (failed & g & rest & H & _)].
    by destruct failed.
  - rewrite parse_dates_cons. destruct (strptime s f) eqn:Hf.
    + split.
      * intros [= ->]. exists [], f, fs. by repeat split.
      * intros ([|g failed] & f' & rest & Heq & Hfail & Hok); simplify_eq/=.
        -- done.
        -- apply Forall_cons in Hfail as [? _]. congruence.
    + rewrite IH. split.
      * intros (failed & f' & rest & -> & Hfail & Hok).
        exists (f :: failed), f', rest. repeat split; [|done]. by constructor.
      * intros ([|g failed] & f' & rest & Heq & Hfail & Hok); simplify_eq/=.
        apply Forall_cons in Hfail as [_ ?]. by exists failed, f', rest.
Qed.

(** On a value that is not a [str] the first [strptime] call raises
    [TypeError], which [try_parse_date] does not catch. *)
Lemma parse_dates_not_str (v : pyobj) (f : string) (fs : list string) :
  (∀ s, v ≠ PyStr s) →
  parse_dates strptime v (f :: fs) = Raise TypeError.
Proof. intros Hv. simpl. by rewrite try_parse_date_not_str. Qed.

End ParserFacts.

(** ** The metadata extractor *)

Section ExtractorFacts.

Context (strptime : string → string → option datetime).

Lemma scan_keys_candidate (self : MetadataProcessor) (exif_data : gmap Z pyobj) :
  scan_keys [exif_DateTimeOriginal_tag self; exit_DateTimeDigitized_tag self;
             exif_DateTime_tag self] exif_data (PyStr "") [] =
  match image_candidate self exif_data with
  | Some v => (v, ["%Y:%m:%d %H:%M:%S"])
  | None => (PyStr "", [])
  end.
Proof.
  unfold image_candidate. simpl.
  destruct (exif_data !! exif_DateTimeOriginal_tag self); [done|].
  destruct (exif_data !! exit_DateTimeDigitized_tag self); [done|].
  by destruct (exif_data !! exif_DateTime_tag self).
Qed.

(** The [try] block on an image whose EXIF dictionary was read. *)
Lemma try_block_image (self : MetadataProcessor) (w : World) (file_path : string)
    (img : Image) (exif_data : gmap Z pyobj) :
  endswith_any (lower file_path) image_files_with_EXIF_metadata = true →
  Image_open w file_path = Ret img →
  getexif img = Ret (Some exif_data) →
  try_block self w file_path =
  match image_candidate self exif_data with
  | Some v =>
      if bool_decide (v = PyStr "") then Ret (Return (NO_METADATA, None))
      else Ret (FallThrough v ["%Y:%m:%d %H:%M:%S"])
  | None => Ret (Return (NO_METADATA, None))
  end.
Proof.
  intros Hext Hopen Hexif. unfold try_block.
  rewrite Hext, Hopen. run_bind. rewrite Hexif. run_bind.
  rewrite scan_keys_candidate.
  case_bool_decide as Hempty.
  - subst exif_data. unfold image_candidate. by rewrite !lookup_empty.
  - destruct (image_candidate self exif_data); [done|].
    by rewrite bool_decide_eq_true_2.
Qed.

(** The [try] block on a video that was probed. *)
Lemma try_block_video (self : MetadataProcessor) (w : World) (file_path : string)
    (probe : Probe) :
  endswith_any (lower file_path) video_files_for_ffmpeg = true →
  ffmpeg_probe w file_path = Ret probe →
  try_block self w file_path =
  match creation_time probe with
  | Some ct =>
      Ret (FallThrough (PyStr ct)
             ["%Y-%m-%dT%H:%M:%S.%fZ"; "%Y-%m-%d %H:%M:%S.%fZ";
              "%Y-%m-%d %H:%M:%S"; "%Y:%m:%d %H:%M:%S"])
  | None => Ret (Return (NO_METADATA, None))
  end.
Proof.
  intros Hext Hprobe. unfold try_block.
  rewrite (video_not_image _ Hext), Hext, Hprobe. run_bind.
  unfold creation_time.
  destruct (probe_format probe) as [fmt|]; simpl; [|done].
  destruct (format_tags fmt) as [tags|]; simpl; [|done].
  by destruct (tags !! "creation_time").
Qed.

(** What the [try] block can fall through with: a [str] with the four video
    formats, or any EXIF value other than the empty [str] with the EXIF
    format. *)
Lemma try_block_fall_through (self : MetadataProcessor) (w : World)
    (file_path : string) (date_str : pyobj) (date_formats : list string) :
  try_block self w file_path = Ret (FallThrough date_str date_formats) →
  (∃ img exif_data,
      Image_open w file_path = Ret img ∧ getexif img = Ret (Some exif_data) ∧
      endswith_any (lower file_path) image_files_with_EXIF_metadata = true ∧
      image_candidate self exif_data = Some date_str ∧
      date_formats = ["%Y:%m:%d %H:%M:%S"]) ∨
  (∃ s, date_str = PyStr s ∧ length date_formats = 4).
Proof.
  unfold try_block.
  destruct (endswith_any (lower file_path) image_files_with_EXIF_metadata) eqn:Hi.
  - destruct (Image_open w file_path) as [img|] eqn:Hopen; run_bind; [|done].
    destruct (getexif img) as [[exif_data|]|] eqn:Hexif; run_bind; [|done..].
    case_bool_decide; [done|]. rewrite scan_keys_candidate.
    destruct (image_candidate self exif_data) as [v|] eqn:Hc; simpl.
    + destruct (bool_decide (v = PyStr "")); [done|].
      intros [= <- <-]. left. by exists img, exif_data.
    + done.
  - destruct (endswith_any (lower file_path) video_files_for_ffmpeg); [|done].
    destruct (ffmpeg_probe w file_path) as [probe|]; run_bind; [|done].
    destruct (probe_format probe) as [fmt|]; simpl; [|done].
    destruct (format_tags fmt) as [tags|]; simpl; [|done].
    destruct (tags !! "creation_time") as [ct|]; [|done].
    intros [= <- <-]. right. by exists ct.
Qed.

(** Every [return] inside the [try] block carries an error result and no
    timestamp. *)
Lemma try_block_return (self : MetadataProcessor) (w : World)
    (file_path : string) (o : outcome) :
  try_block self w file_path = Ret (Return o) →
  o = (NO_METADATA, None) ∨ o = (FAILED_TO_READ, None).
Proof.
  unfold try_block.
  destruct (endswith_any (lower file_path) image_files_with_EXIF_metadata).
  - destruct (Image_open w file_path) as [img|]; run_bind; [|done].
    destruct (getexif img) as [[exif_data|]|]; run_bind; [|naive_solver..].
    destruct (bool_decide (exif_data = ∅)); [naive_solver|].
    destruct (scan_keys _ _ _ _) as [v fs].
    destruct (bool_decide (v = PyStr "")); naive_solver.
  - destruct (endswith_any (lower file_path) video_files_for_ffmpeg);
      [|naive_solver].
    destruct (ffmpeg_probe w file_path) as [probe|]; run_bind; [|done].
    destruct (probe_format probe) as [fmt|]; simpl; [|naive_solver].
    destruct (format_tags fmt) as [tags|]; simpl; [|naive_solver].
    destruct (tags !! "creation_time"); naive_solver.
Qed.

(** Whatever the [try] block raises is turned into [FAILED_TO_READ]. *)
Lemma get_creation_date_caught (self : MetadataProcessor) (w : World)
    (file_path : string) (e : exn) :
  try_block self w file_path = Raise e →
  get_creation_date strptime self w file_path = Ret (FAILED_TO_READ, None).
Proof. intros H. unfold get_creation_date. rewrite H. by destruct e. Qed.

(** The extractor after a fall-through with a [str] candidate. *)
Lemma get_creation_date_str (self : MetadataProcessor) (w : World)
    (file_path s : string) (date_formats : list string) :
  try_block self w file_path = Ret (FallThrough (PyStr s) date_formats) →
  get_creation_date strptime self w file_path =
  match parse_dates strptime (PyStr s) date_formats with
  | Ret (Some d) => Ret (VALID_CREATION_TIMESTAMP, Some d)
  | _ => Ret (INVALID_TIMESTAMP_FORMAT, None)
  end.
Proof.
  intros H. unfold get_creation_date. rewrite H.
  destruct (parse_dates_str_returns strptime s date_formats) as [[d|] ->]; done.
Qed.

(** The extractor raises only [TypeError], and only for an image whose
    candidate is not a [str]. *)
Lemma get_creation_date_raises (self : MetadataProcessor) (w : World)
    (file_path : string) (e : exn) :
  get_creation_date strptime self w file_path = Raise e →
  e = TypeError ∧
  ∃ img exif_data v,
    Image_open w file_path = Ret img ∧ getexif img = Ret (Some exif_data) ∧
    endswith_any (lower file_path) image_files_with_EXIF_metadata = true ∧
    image_candidate self exif_data = Some v ∧ ∀ s, v ≠ PyStr s.
Proof.
  unfold get_creation_date.
  destruct (try_block self w file_path) as [[o|v fs]|e'] eqn:Hb;
    [done| |by destruct e'].
  destruct v as [s|b|n].
  - destruct (parse_dates_str_returns strptime s fs) as [[d|] ->]; done.
  - apply try_block_fall_through in Hb
      as [(img & ex & ? & ? & ? & ? & ->)|(s & ? & _)]; [|done].
    simpl. intros [= <-]. split; [done|]. by exists img, ex, (PyBytes b).
  - apply try_block_fall_through in Hb
      as [(img & ex & ? & ? & ? & ? & ->)|(s & ? & _)]; [|done].
    simpl. intros [= <-]. split; [done|]. by exists img, ex, (PyInt n).
Qed.

(** Every outcome the extractor returns has a timestamp exactly when the
    result is [VALID_CREATION_TIMESTAMP]. *)
Lemma get_creation_date_outcome (self : MetadataProcessor) (w : World)
    (file_path : string) (r : ProcessingResult) (ts : option datetime) :
  get_creation_date strptime self w file_path = Ret (r, ts) →
  (is_Some ts ↔ r = VALID_CREATION_TIMESTAMP).
Proof.
  unfold get_creation_date.
  destruct (try_block self w file_path) as [[o|v fs]|e'] eqn:Hb.
  - intros [= ->].
    apply try_block_return in Hb as [[= -> ->]|[= -> ->]];
      (split; [by intros [? ?] | done]).
  - destruct (parse_dates strptime v fs) as [[d|]|]; simpl; [| |done].
    + intros [= <- <-]. split; [done | by eexists].
    + intros [= <- <-]. split; [by intros [? ?] | done].
  - destruct e'; intros [= <- <-]; (split; [by intros [? ?] | done]).
Qed.

End ExtractorFacts.

(** ** The claims about the parser and the extractor *)

(** An image whose candidate is not a [str]: the [TypeError] of [strptime]
    is raised after the [try] block has ended and reaches the caller. *)
Lemma get_creation_date_type_error
    (strptime : string → string → option datetime)
    (self : MetadataProcessor) (w : World) (file_path : string)
    (img : Image) (exif_data : gmap Z pyobj) (v : pyobj) :
  endswith_any (lower file_path) image_files_with_EXIF_metadata = true →
  Image_open w file_path = Ret img →
  getexif img = Ret (Some exif_data) →
  image_candidate self exif_data = Some v →
  (∀ s, v ≠ PyStr s) →
  get_creation_date strptime self w file_path = Raise TypeError.
Proof.
  intros Hext Hopen Hexif Hc Hv. unfold get_creation_date.
  rewrite (try_block_image self w file_path img exif_data Hext Hopen Hexif), Hc.
  rewrite bool_decide_eq_false_2 by apply Hv.
  by rewrite parse_dates_not_str.
Qed.

(** When every EXIF value is a [str], the extractor returns an outcome for
    every path: whatever the collaborators raise is caught. *)
Lemma get_creation_date_returns
    (strptime : string → string → option datetime)
    (self : MetadataProcessor) (w : World) (file_path : string) :
  str_valued w →
  ∃ o, get_creation_date strptime self w file_path = Ret o.
Proof.
  intros Hw.
  destruct (get_creation_date strptime self w file_path) as [o|e] eqn:Hg;
    [by exists o|].
  apply get_creation_date_raises in Hg
    as (_ & img & ex & v & Hopen & Hexif & _ & Hc & Hv).
  assert (∃ key, ex !! key = Some v) as [key Hkey].
  { unfold image_candidate in Hc.
    destruct (ex !! exif_DateTimeOriginal_tag self) eqn:H1; [by eexists; simplify_eq|].
    destruct (ex !! exit_DateTimeDigitized_tag self) eqn:H2; [by eexists; simplify_eq|].
    by eexists. }
  destruct (Hw file_path img ex key v Hopen Hexif Hkey) as [s ->].
  by destruct (Hv s).
Qed.

(** C2, at a failing input: the picture [2020/c.JPG] stores DateTimeOriginal
    with a binary type, so Pillow hands it over as a [bytes] object; the
    extractor then does not return one of the four results but lets a
    [TypeError] propagate to its caller, whatever [strptime] does on
    strings. *)
Theorem get_creation_date_propagates_type_error :
  ∀ strptime : string → string → option datetime,
    get_creation_date strptime example_self example_world "2020/c.JPG"
    = Raise TypeError.
Proof.
  intros strptime.
  eapply (get_creation_date_type_error strptime example_self example_world
            "2020/c.JPG" _ _ (PyBytes "2020:07:04 10:15:00")).
  - vm_compute. reflexivity.
  - reflexivity.
  - reflexivity.
  - vm_compute. reflexivity.
  - intros s. discriminate.
Qed.

(** C3 as stated fails: with the empty format, which [strptime] matches
    against the empty string, the empty candidate parses (to the default
    date 1900-01-01 00:00:00) although the claim has it return none. *)
Lemma parse_dates_empty_candidate_empty_format :
  parse_dates Strptime.strptime (PyStr "") [""]
  = Ret (Some (mk_datetime 1900 1 1 0 0 0 0)) ∧
  ¬ (parse_dates Strptime.strptime (PyStr "") [""] = Ret None ↔
     Forall (λ f, Strptime.strptime "" f = None) [""] ∨ "" = "").
Proof.
  assert (parse_dates Strptime.strptime (PyStr "") [""]
          = Ret (Some (mk_datetime 1900 1 1 0 0 0 0))) as Hrun
    by (vm_compute; reflexivity).
  split; [exact Hrun|].
  intros [_ Hclaim]. rewrite Hrun in Hclaim.
  specialize (Hclaim (or_intror eq_refl)). discriminate.
Qed.

(** C3, amended: the formats are tried in the given order and the parse of
    the first one that succeeds is returned; none is returned exactly when
    every format fails; when formats #1 and #2 of four fail and #3 succeeds
    the result is the value of #3; and the empty candidate gives none for
    every list made of the formats the extractor uses. *)
Theorem parse_dates_first_match_wins :
  (∀ (strptime : string → string → option datetime) (s : string)
     (fs : list string),
      (parse_dates strptime (PyStr s) fs = Ret None ↔
       Forall (λ f, strptime s f = None) fs) ∧
      (∀ d, parse_dates strptime (PyStr s) fs = Ret (Some d) ↔
            ∃ failed f rest,
              fs = failed ++ f :: rest ∧
              Forall (λ g, strptime s g = None) failed ∧
              strptime s f = Some d)) ∧
  (∀ (strptime : string → string → option datetime) (s f1 f2 f3 f4 : string)
     (d : datetime),
      strptime s f1 = None → strptime s f2 = None → strptime s f3 = Some d →
      parse_dates strptime (PyStr s) [f1; f2; f3; f4] = Ret (Some d)) ∧
  (∀ fs : list string,
      Forall (λ f, f = exif_format ∨ f ∈ video_formats) fs →
      parse_dates Strptime.strptime (PyStr "") fs = Ret None).
Proof.
  split; [|split].
  - intros strptime s fs. split.
    + apply parse_dates_none.
    + intros d. apply parse_dates_some.
  - intros strptime s f1 f2 f3 f4 d H1 H2 H3.
    apply parse_dates_some. exists [f1; f2], f3, [f4].
    repeat split; [|done]. by repeat constructor.
  - intros fs Hfs. apply parse_dates_none.
    eapply Forall_impl; [exact Hfs|]. intros f [->|Hf]; [by vm_compute|].
    unfold video_formats in Hf.
    repeat (apply elem_of_cons in Hf as [->|Hf]; [by vm_compute|]).
    by apply elem_of_nil in Hf.
Qed.

(** C4: for a picture whose EXIF dictionary was read, the candidate is the
    value of the first tag present among DateTimeOriginal, DateTimeDigitized
    and DateTime, whatever the later tags hold; it is parsed with the EXIF
    format and no other; with none of the tags the outcome is
    [NO_METADATA]. *)
Theorem image_candidate_and_format
    (strptime : string → string → option datetime)
    (self : MetadataProcessor) (w : World) (file_path : string)
    (img : Image) (exif_data : gmap Z pyobj) :
  endswith_any (lower file_path) image_files_with_EXIF_metadata = true →
  Image_open w file_path = Ret img →
  getexif img = Ret (Some exif_data) →
  match image_candidate self exif_data with
  | None =>
      get_creation_date strptime self w file_path = Ret (NO_METADATA, None)
  | Some v =>
      if bool_decide (v = PyStr "") then
        get_creation_date strptime self w file_path = Ret (NO_METADATA, None)
      else
        try_block self w file_path = Ret (FallThrough v ["%Y:%m:%d %H:%M:%S"]) ∧
        ∀ s, v = PyStr s →
             get_creation_date strptime self w file_path =
             match strptime s "%Y:%m:%d %H:%M:%S" with
             | Some d => Ret (VALID_CREATION_TIMESTAMP, Some d)
             | None => Ret (INVALID_TIMESTAMP_FORMAT, None)
             end
  end.
Proof.
  intros Hext Hopen Hexif.
  pose proof (try_block_image self w file_path img exif_data Hext Hopen Hexif)
    as Hb.
  destruct (image_candidate self exif_data) as [v|].
  - destruct (bool_decide (v = PyStr "")).
    + unfold get_creation_date. by rewrite Hb.
    + split; [done|]. intros s ->.
      rewrite (get_creation_date_str strptime self w file_path s _ Hb).
      rewrite parse_dates_cons. by destruct (strptime s _).
  - unfold get_creation_date. by rewrite Hb.
Qed.

Lemma image_candidate_and_format_witness :
  get_creation_date Strptime.strptime example_self example_world "2020/a.jpg"
  = Ret (VALID_CREATION_TIMESTAMP, Some (mk_datetime 2019 7 4 10 15 0 0)).
Proof.
  pose proof (image_candidate_and_format Strptime.strptime example_self
                example_world "2020/a.jpg"
                {| getexif := Ret (Some {[ 36867%Z := PyStr "2019:07:04 10:15:00" ]}) |}
                {[ 36867%Z := PyStr "2019:07:04 10:15:00" ]}
                ltac:(vm_compute; reflexivity) eq_refl eq_refl) as H.
  change (image_candidate example_self {[ 36867%Z := PyStr "2019:07:04 10:15:00" ]})
    with (Some (PyStr "2019:07:04 10:15:00")) in H.
  change (bool_decide (PyStr "2019:07:04 10:15:00" = PyStr "")) with false in H.
  destruct H as [_ Hrun].
  rewrite (Hrun _ eq_refl). vm_compute. reflexivity.
Defined.

(** C5: for a video that was probed, a missing format-level tag block or a
    missing [creation_time] tag gives [NO_METADATA]; otherwise the tag is
    parsed with exactly the four video formats, in their order. *)
Theorem video_candidate_and_formats
    (strptime : string → string → option datetime)
    (self : MetadataProcessor) (w : World) (file_path : string) (probe : Probe) :
  endswith_any (lower file_path) video_files_for_ffmpeg = true →
  ffmpeg_probe w file_path = Ret probe →
  match creation_time probe with
  | None =>
      get_creation_date strptime self w file_path = Ret (NO_METADATA, None)
  | Some ct =>
      try_block self w file_path =
        Ret (FallThrough (PyStr ct)
               ["%Y-%m-%dT%H:%M:%S.%fZ"; "%Y-%m-%d %H:%M:%S.%fZ";
                "%Y-%m-%d %H:%M:%S"; "%Y:%m:%d %H:%M:%S"]) ∧
      get_creation_date strptime self w file_path =
        match strptime ct "%Y-%m-%dT%H:%M:%S.%fZ" with
        | Some d => Ret (VALID_CREATION_TIMESTAMP, Some d)
        | None =>
        match strptime ct "%Y-%m-%d %H:%M:%S.%fZ" with
        | Some d => Ret (VALID_CREATION_TIMESTAMP, Some d)
        | None =>
        match strptime ct "%Y-%m-%d %H:%M:%S" with
        | Some d => Ret (VALID_CREATION_TIMESTAMP, Some d)
        | None =>
        match strptime ct "%Y:%m:%d %H:%M:%S" with
        | Some d => Ret (VALID_CREATION_TIMESTAMP, Some d)
        | None => Ret (INVALID_TIMESTAMP_FORMAT, None)
        end end end end
  end.
Proof.
  intros Hext Hprobe.
  pose proof (try_block_video self w file_path probe Hext Hprobe) as Hb.
  destruct (creation_time probe) as [ct|].
  - split; [done|].
    rewrite (get_creation_date_str strptime self w file_path ct _ Hb).
    rewrite !parse_dates_cons.
    by repeat (destruct (strptime ct _); [done|]).
  - unfold get_creation_date. by rewrite Hb.
Qed.

Lemma video_candidate_and_formats_witness :
  get_creation_date Strptime.strptime example_self example_world "2020/v.mp4"
  = Ret (VALID_CREATION_TIMESTAMP, Some (mk_datetime 2020 3 1 0 0 0 0)).
Proof.
  pose proof (video_candidate_and_formats Strptime.strptime example_self
                example_world "2020/v.mp4"
                {| probe_format := Some {| format_tags :=
                     Some {[ "creation_time" := "2020-03-01T00:00:00.000000Z" ]} |} |}
                ltac:(vm_compute; reflexivity) eq_refl) as H.
  change (creation_time _) with (Some "2020-03-01T00:00:00.000000Z") in H.
  destruct H as [_ ->]. vm_compute. reflexivity.
Defined.

(** C8, at a failing input: for the picture [2020/c.JPG], whose
    DateTimeOriginal is a [bytes] object, the extractor produces no outcome
    at all, with or without a timestamp, whatever [strptime] does on
    strings: the call ends in the [TypeError] of C2. The same date stored
    as a [str] gives the valid outcome with its timestamp. *)
Theorem no_outcome_for_bytes_date :
  (∀ (strptime : string → string → option datetime)
     (outcome : ProcessingResult * option datetime),
      get_creation_date strptime example_self example_world "2020/c.JPG"
      ≠ Ret outcome) ∧
  (∃ ts,
      get_creation_date Strptime.strptime example_self text_world "2020/c.JPG"
      = Ret (VALID_CREATION_TIMESTAMP, Some ts)).
Proof.
  split.
  - intros strptime outcome.
    rewrite (get_creation_date_type_error strptime example_self example_world
               "2020/c.JPG"
               {| getexif :=
                    Ret (Some {[ 36867%Z := PyBytes "2020:07:04 10:15:00" ]}) |}
               {[ 36867%Z := PyBytes "2020:07:04 10:15:00" ]}
               (PyBytes "2020:07:04 10:15:00")).
    + discriminate.
    + vm_compute. reflexivity.
    + reflexivity.
    + reflexivity.
    + vm_compute. reflexivity.
    + intros s. discriminate.
  - eexists. vm_compute. reflexivity.
Qed.

(** Every outcome the extractor returns carries a timestamp exactly when
    its result is [VALID_CREATION_TIMESTAMP]; the three error results come
    with [None]. The one case without an outcome is the [TypeError] of an
    image whose candidate is not a [str]. *)
Theorem outcome_timestamp_iff_valid :
  ∀ (strptime : string → string → option datetime) (self : MetadataProcessor)
    (w : World) (file_path : string),
    match get_creation_date strptime self w file_path with
    | Ret (r, ts) =>
        (is_Some ts ↔ r = VALID_CREATION_TIMESTAMP) ∧
        (r ∈ [FAILED_TO_READ; NO_METADATA; INVALID_TIMESTAMP_FORMAT] → ts = None)
    | Raise e =>
        e = TypeError ∧
        ∃ img exif_data v,
          Image_open w file_path = Ret img ∧
          getexif img = Ret (Some exif_data) ∧
          image_candidate self exif_data = Some v ∧ ∀ s, v ≠ PyStr s
    end.
Proof.
  intros strptime self w file_path.
  destruct (get_creation_date strptime self w file_path) as [[r ts]|e] eqn:Hg.
  - pose proof (get_creation_date_outcome strptime self w file_path r ts Hg)
      as Hiff.
    split; [exact Hiff|]. intros Hr.
    destruct ts as [d|]; [|done].
    assert (r = VALID_CREATION_TIMESTAMP) as -> by (apply Hiff; by eexists).
    exfalso. clear Hiff Hg.
    repeat (apply elem_of_cons in Hr as [Hr|Hr]; [discriminate|]).
    by apply elem_of_nil in Hr.
  - apply get_creation_date_raises in Hg
      as (-> & img & ex & v & ? & ? & _ & ? & ?).
    split; [done|]. by exists img, ex, v.
Qed.

(** C10: when the first date tag present holds the empty string, the
    [try] block itself returns [NO_METADATA] before any format is tried
    (whatever [strptime] would make of the empty string and whatever the
    later tags hold), which is the outcome of a picture with none of the
    three tags. *)
Theorem empty_candidate_is_no_metadata
    (strptime : string → string → option datetime)
    (self : MetadataProcessor) (w : World) (file_path : string)
    (img : Image) (exif_data : gmap Z pyobj) :
  endswith_any (lower file_path) image_files_with_EXIF_metadata = true →
  Image_open w file_path = Ret img →
  getexif img = Ret (Some exif_data) →
  image_candidate self exif_data = Some (PyStr "") →
  try_block self w file_path = Ret (Return (NO_METADATA, None)) ∧
  get_creation_date strptime self w file_path = Ret (NO_METADATA, None) ∧
  ∀ w' img' exif_data',
    Image_open w' file_path = Ret img' →
    getexif img' = Ret (Some exif_data') →
    image_candidate self exif_data' = None →
    get_creation_date strptime self w' file_path
    = get_creation_date strptime self w file_path.
Proof.
  intros Hext Hopen Hexif Hc.
  pose proof (try_block_image self w file_path img exif_data Hext Hopen Hexif)
    as Hb.
  rewrite Hc in Hb. change (bool_decide (PyStr "" = PyStr "")) with true in Hb.
  assert (get_creation_date strptime self w file_path = Ret (NO_METADATA, None))
    as Hg by (unfold get_creation_date; by rewrite Hb).
  split; [done|]. split; [done|].
  intros w' img' ex' Hopen' Hexif' Hc'. rewrite Hg.
  unfold get_creation_date.
  by rewrite (try_block_image self w' file_path img' ex' Hext Hopen' Hexif'), Hc'.
Qed.

Lemma empty_candidate_is_no_metadata_witness :
  get_creation_date Strptime.strptime example_self example_world "2020/d.png"
  = Ret (NO_METADATA, None).
Proof.
  apply (empty_candidate_is_no_metadata Strptime.strptime example_self
           example_world "2020/d.png"
           {| getexif := Ret (Some {[ 36867%Z := PyStr "";
                                      306%Z := PyStr "2020:01:01 00:00:00" ]}) |}
           {[ 36867%Z := PyStr ""; 306%Z := PyStr "2020:01:01 00:00:00" ]}).
  - vm_compute. reflexivity.
  - reflexivity.
  - reflexivity.
  - vm_compute. reflexivity.
Defined.

(** ** The directory classifier *)

Lemma for_fold_app {A B : Type} (body : B → A → res B) (xs ys : list A) (b : B) :
  for_fold body (xs ++ ys) b = (b' ← for_fold body xs b; for_fold body ys b').
Proof.
  revert b. induction xs as [|x xs IH]; intros b; [done|].
  simpl. destruct (body b x) as [b1|e]; [apply IH | done].
Qed.

Lemma for_fold_fmap {A A' B : Type} (g : A → A') (body : B → A' → res B)
    (xs : list A) (b : B) :
  for_fold (λ b x, body b (g x)) xs b = for_fold body (g <$> xs) b.
Proof.
  revert b. induction xs as [|x xs IH]; intros b; [done|].
  simpl. destruct (body b (g x)) as [b1|e]; [apply IH | done].
Qed.

Section ClassifierFacts.

Context (strptime : string → string → option datetime).
Context (self : MetadataProcessor) (w : World) (year : Z).

(** The two nested loops visit [walked_paths] in order. *)
Lemma walk_loop_flat (search_path : string) :
  walk_loop strptime self w search_path year =
  for_fold (classify_file strptime self w year)
    (walked_paths w search_path) empty_buckets.
Proof.
  unfold walk_loop, walked_paths.
  generalize empty_buckets.
  induction (os_walk w search_path) as [|[[root dirs] names] ts IH]; intros b;
    [done|].
  rewrite fmap_cons. cbn [concat]. rewrite for_fold_app.
  cbn [for_fold fst snd]. rewrite for_fold_fmap.
  unfold mbind, res_bind.
  destruct (for_fold _ (os_path_join root <$> names) b) as [b1|e];
    [apply IH | done].
Qed.

Lemma lands_in_unique (k k' : bucket) (file_path : string) :
  lands_in strptime self w year k file_path →
  lands_in strptime self w year k' file_path →
  k = k'.
Proof. intros (o & Ho & Hk) (o' & Ho' & Hk'). congruence. Qed.

(** One pass of the loop body: a skipped path changes nothing, any other
    path is appended to the bucket of its outcome. *)
Lemma classify_file_step (b b' : Buckets) (file_path : string) :
  classify_file strptime self w year b file_path = Ret b' →
  if endswith (lower file_path) ignore_files then b' = b
  else
    ∃ k, lands_in strptime self w year k file_path ∧
         b' = match k with
              | Matching =>
                  {| matching_files := matching_files b ++ [file_path];
                     non_matching_files := non_matching_files b;
                     failed_to_read_files := failed_to_read_files b |}
              | NonMatching =>
                  {| matching_files := matching_files b;
                     non_matching_files := non_matching_files b ++ [file_path];
                     failed_to_read_files := failed_to_read_files b |}
              | Failed =>
                  {| matching_files := matching_files b;
                     non_matching_files := non_matching_files b;
                     failed_to_read_files :=
                       failed_to_read_files b
                         ++ [annotated strptime self w file_path] |}
              end.
Proof.
  unfold classify_file, lands_in, annotated, append.
  destruct (endswith (lower file_path) ignore_files); [by intros [= <-]|].
  destruct (get_creation_date strptime self w file_path) as [[r ts]|e];
    run_bind; [|done].
  destruct r; simpl.
  - destruct ts as [d|]; [|done].
    destruct (bool_decide (Datetime.year d = year)) eqn:Hy; intros [= <-].
    + exists Matching. split; [|done]. eexists. split; [done|]. simpl. by rewrite Hy.
    + exists NonMatching. split; [|done]. eexists. split; [done|]. simpl. by rewrite Hy.
  - intros [= <-]. exists Failed. split; [|done]. by eexists.
  - intros [= <-]. exists NonMatching. split; [|done]. by eexists.
  - intros [= <-]. exists Failed. split; [|done]. by eexists.
Qed.

(** The loop from any state [b]: each bucket grows by the processed paths
    that land in it, in the order of the walk. *)
Lemma for_fold_classify (paths : list string) (b b' : Buckets) :
  for_fold (classify_file strptime self w year) paths b = Ret b' →
  let processed := filter (λ p, endswith (lower p) ignore_files = false) paths in
  matching_files b' =
    matching_files b ++ filter (lands_in strptime self w year Matching) processed ∧
  non_matching_files b' =
    non_matching_files b
      ++ filter (lands_in strptime self w year NonMatching) processed ∧
  failed_to_read_files b' =
    failed_to_read_files b
      ++ (annotated strptime self w
            <$> filter (lands_in strptime self w year Failed) processed) ∧
  Forall (λ p, ∃ k, lands_in strptime self w year k p) processed.
Proof.
  revert b. induction paths as [|p paths IH]; intros b.
  - intros [= <-]. simpl. rewrite !app_nil_r. by repeat split.
  - cbn [for_fold]. unfold mbind, res_bind.
    destruct (classify_file strptime self w year b p) as [b1|e] eqn:Hstep;
      [|done].
    intros Hrest. apply IH in Hrest as (Hm & Hn & Hf & Hall). clear IH.
    apply classify_file_step in Hstep.
    destruct (endswith (lower p) ignore_files) eqn:Hskip.
    + subst b1. cbn zeta. rewrite filter_cons_False by (by rewrite Hskip).
      done.
    + destruct Hstep as (k & Hk & ->). cbn zeta.
      rewrite filter_cons_True by done.
      assert (∀ k', k' ≠ k → ¬ lands_in strptime self w year k' p) as Hne.
      { intros k' Hk' H'. apply Hk'. by eapply lands_in_unique. }
      destruct k; simpl in Hm, Hn, Hf;
        rewrite ?(filter_cons_True _ _ _ Hk);
        rewrite !filter_cons_False by (apply Hne; discriminate);
        rewrite ?fmap_cons, Hm, Hn, Hf, <- ?app_assoc;
        (repeat split; [done..|]); constructor; eauto.
Qed.

End ClassifierFacts.

(** ** The report writer *)

Lemma string_app_nil_r (s : string) : s +:+ "" = s.
Proof.
  induction s as [|c s IH]; [done|].
  change (String c s +:+ "") with (String c (s +:+ "")). by rewrite IH.
Qed.

Lemma string_app_assoc (s t u : string) : (s +:+ t) +:+ u = s +:+ (t +:+ u).
Proof.
  induction s as [|c s IH]; [done|].
  change (String c ((s +:+ t) +:+ u) = String c (s +:+ (t +:+ u))).
  by rewrite IH.
Qed.

(** The two report files of a year have different names. *)
Lemma report_names_differ (year : Z) :
  str year +:+ "_non_matching_files.txt" ≠ str year +:+ "_failed_to_read_files.txt".
Proof. intros H. apply (inj (String.app (str year))) in H. discriminate. Qed.

Lemma string_length_app (s t : string) :
  String.length (s +:+ t) = String.length s + String.length t.
Proof.
  induction s as [|c s IH]; [done|].
  change (S (String.length (s +:+ t)) = S (String.length s + String.length t)).
  by rewrite IH.
Qed.

Lemma first_chars_all (n : nat) (s : string) :
  String.length s ≤ n → first_chars n s = s.
Proof.
  revert n. induction s as [|c s IH]; intros [|n] Hn; cbn in *; try done; [lia|].
  f_equal. apply IH. lia.
Qed.

Lemma first_chars_app_le (n : nat) (s t : string) :
  n ≤ String.length s → first_chars n (s +:+ t) = first_chars n s.
Proof.
  revert n. induction s as [|c s IH]; intros [|n] Hn; cbn in *; try done; [lia|].
  change (String c (first_chars n (s +:+ t)) = String c (first_chars n s)).
  f_equal. apply IH. lia.
Qed.

Lemma first_chars_app_ge (n : nat) (s t : string) :
  first_chars (String.length s + n) (s +:+ t) = s +:+ first_chars n t.
Proof.
  induction s as [|c s IH]; [done|].
  change (String c (first_chars (String.length s + n) (s +:+ t))
          = String c (s +:+ first_chars n t)).
  by rewrite IH.
Qed.

(** [s[:n]] is the start of [s]. *)
Lemma first_chars_prefix (n : nat) (s : string) :
  ∃ rest, s = first_chars n s +:+ rest.
Proof.
  revert n. induction s as [|c s IH]; intros [|n]; cbn [first_chars]; eauto.
  destruct (IH n) as [rest Hrest]. exists rest.
  change (String c s = String c (first_chars n s +:+ rest)). by rewrite <- Hrest.
Qed.

Lemma first_chars_length (n : nat) (s : string) :
  String.length (first_chars n s) = n `min` String.length s.
Proof.
  revert n. induction s as [|c s IH]; intros [|n]; cbn; try done.
  by rewrite IH.
Qed.

(** What the device does with [text] for the end of the open file. *)
Lemma device_write_spec (output_file text content : string)
    (fs : gmap string string) (q : option nat) :
  device_write output_file text
    {| files := <[output_file := content]> fs; quota := q |}
  = (if decide (written q (String.length text) = String.length text)
     then Ret () else Raise OSError,
     {| files := <[output_file :=
                     content +:+ first_chars (written q (String.length text)) text]> fs;
        quota := (λ m, m - written q (String.length text)) <$> q |}).
Proof.
  unfold device_write. cbn [quota files].
  destruct q as [m|]; cbn [written fmap option_fmap option_map];
    rewrite !alter_insert_eq.
  - destruct (Nat.leb_spec (String.length text) m) as [Hle|Hlt].
    + rewrite Nat.min_r by done. rewrite decide_True by done.
      by rewrite first_chars_all.
    + rewrite Nat.min_l by lia. rewrite decide_False by lia.
      by rewrite Nat.sub_diag.
  - rewrite decide_True by done. by rewrite first_chars_all.
Qed.

(** The loop of lines 206-207 (and 220-221) and the end of the [with]
    block, on the open file that holds [content] on the device and
    [pending] in its buffer: whenever the text is handed over, the device
    ends with the characters of [pending] and of the entries that its
    quota allows, and the run raises when that is not all of them. *)
Lemma for_each_write (output_file : string) (entries : list string)
    (content pending : string) (fs : gmap string string) (q : option nat) :
  (pending' ← for_each_on entries
                (λ pending file, write output_file pending (file +:+ nl)) pending;
   close output_file pending')
    {| files := <[output_file := content]> fs; quota := q |}
  = let text := pending +:+ lines_text entries in
    let k := written q (String.length text) in
    (if decide (k = String.length text) then Ret () else Raise OSError,
     {| files := <[output_file := content +:+ first_chars k text]> fs;
        quota := (λ m, m - k) <$> q |}).
Proof.
  cbv zeta. revert content pending q.
  induction entries as [|e es IH]; intros content pending q.
  - cbn [for_each_on lines_text foldr]. unfold mbind, IO_bind, mret, IO_ret, close.
    rewrite string_app_nil_r. apply device_write_spec.
  - cbn [for_each_on lines_text foldr].
    change (foldr (λ entry text, entry +:+ nl +:+ text) "" es)
      with (lines_text es).
    replace (pending +:+ e +:+ nl +:+ lines_text es)
      with ((pending +:+ e +:+ nl) +:+ lines_text es)
      by (by rewrite !string_app_assoc).
    unfold mbind, IO_bind in IH |- *. unfold write. cbv zeta.
    set (p := pending +:+ e +:+ nl). set (t := lines_text es).
    destruct (DEFAULT_BUFFER_SIZE <? String.length p); [|apply IH].
    unfold mbind, IO_bind, mret, IO_ret.
    rewrite device_write_spec, string_length_app.
    destruct (decide (written q (String.length p) = String.length p))
      as [Hall|Hcut].
    + rewrite Hall, first_chars_all by done. rewrite IH. fold t.
      change ("" +:+ t) with t.
      assert (written q (String.length p + String.length t)
              = String.length p
                + written ((λ m, m - String.length p) <$> q) (String.length t))
        as -> by (destruct q; cbn in *; lia).
      rewrite first_chars_app_ge, string_app_assoc. f_equal.
      * repeat case_decide; (done || lia).
      * f_equal. destruct q as [m|]; cbn; [|done]. f_equal. lia.
    + assert (written q (String.length p) = written q (String.length p + String.length t)
              ∧ written q (String.length p) < String.length p) as [Hk Hlt]
        by (destruct q; cbn in *; lia).
      rewrite <- Hk. rewrite decide_False by lia.
      by rewrite first_chars_app_le by lia.
Qed.

(** Lines 201-213 on a directory [fs] with quota [q]. *)
Lemma write_or_remove_spec (output_file : string) (entries : list string)
    (fs : gmap string string) (q : option nat) :
  write_or_remove output_file entries {| files := fs; quota := q |} =
  match entries with
  | [] => (Ret (), {| files := delete output_file fs; quota := q |})
  | _ =>
      (if decide (written q (String.length (lines_text entries))
                  = String.length (lines_text entries))
       then Ret () else Raise OSError,
       {| files := <[output_file :=
                       first_chars (written q (String.length (lines_text entries)))
                         (lines_text entries)]> fs;
          quota := (λ m, m - written q (String.length (lines_text entries))) <$> q |})
  end.
Proof.
  unfold write_or_remove. destruct entries as [|e es].
  - cbn [length Nat.ltb Nat.leb]. unfold mbind, IO_bind, os_path_exists, os_remove.
    cbn [files quota]. case_bool_decide as Hex.
    + destruct Hex as [c Hc]. cbn [files quota]. by rewrite Hc.
    + unfold mret, IO_ret. rewrite delete_id; [done|].
      by apply eq_None_not_Some.
  - change (0 <? length (e :: es)) with true. cbn match.
    unfold mbind at 1, IO_bind at 1, open_w. cbn [files quota].
    by rewrite for_each_write.
Qed.

(** [process_directory] on a device that does not fail: a failed
    classification leaves the directory as it was, a completed one leaves
    the two reports in place. *)
Lemma process_directory_reports
    (strptime : string → string → option datetime)
    (self : MetadataProcessor) (w : World) (search_path : string) (year : Z)
    (fs : gmap string string) :
  process_directory strptime self w search_path year {| files := fs; quota := None |}
  = match walk_loop strptime self w search_path year with
    | Raise e => (Raise e, {| files := fs; quota := None |})
    | Ret b =>
        (Ret (),
         {| files :=
              report (str year +:+ "_failed_to_read_files.txt")
                (failed_to_read_files b)
                (report (str year +:+ "_non_matching_files.txt")
                   (non_matching_files b) fs);
            quota := None |})
    end.
Proof.
  unfold process_directory, lift. unfold mbind at 1, IO_bind at 1.
  destruct (walk_loop strptime self w search_path year) as [b|e]; [|done].
  unfold mbind, IO_bind. rewrite write_or_remove_spec. unfold report.
  destruct (non_matching_files b) as [|n ns];
    [|cbn [written fmap option_fmap option_map]; rewrite decide_True by done;
      rewrite first_chars_all by done];
    rewrite write_or_remove_spec;
    (destruct (failed_to_read_files b) as [|f fls];
     [done|cbn [written fmap option_fmap option_map]; rewrite decide_True by done;
           by rewrite first_chars_all by done]).
Qed.

Lemma lookup_report (output_file other : string) (entries : list string)
    (fs : gmap string string) :
  report output_file entries fs !! other =
  if decide (output_file = other)
  then match entries with [] => None | _ => Some (lines_text entries) end
  else fs !! other.
Proof.
  unfold report. destruct entries as [|e es].
  - rewrite lookup_delete. by case_decide.
  - rewrite lookup_insert. by case_decide.
Qed.

(** ** The claims about the classifier and the reports *)

(** The buckets at the end of the walk, shared by the theorems below. *)
Lemma walk_loop_buckets
    (strptime : string → string → option datetime)
    (self : MetadataProcessor) (w : World) (search_path : string) (year : Z)
    (b : Buckets) :
  walk_loop strptime self w search_path year = Ret b →
  matching_files b =
    filter (lands_in strptime self w year Matching)
      (processed_paths w search_path) ∧
  non_matching_files b =
    filter (lands_in strptime self w year NonMatching)
      (processed_paths w search_path) ∧
  failed_to_read_files b =
    annotated strptime self w
      <$> filter (lands_in strptime self w year Failed)
            (processed_paths w search_path) ∧
  Forall (λ p, ∃ k, lands_in strptime self w year k p)
    (processed_paths w search_path).
Proof.
  rewrite walk_loop_flat. intros H.
  by apply for_fold_classify in H.
Qed.

(** A failed entry is the path followed by the name of one of the two
    failure results. *)
Lemma annotated_failed
    (strptime : string → string → option datetime)
    (self : MetadataProcessor) (w : World) (year : Z) (file_path : string) :
  lands_in strptime self w year Failed file_path →
  ∃ r, (r = FAILED_TO_READ ∨ r = INVALID_TIMESTAMP_FORMAT) ∧
       (∃ ts, get_creation_date strptime self w file_path = Ret (r, ts)) ∧
       annotated strptime self w file_path =
       file_path +:+ " (error code: " +:+ name r +:+ ")".
Proof.
  intros ([r ts] & Ho & Hk). unfold annotated. rewrite Ho. exists r.
  split; [|by eauto].
  destruct r; simpl in Hk; [|by left|done|by right].
  destruct ts; [case_bool_decide|]; done.
Qed.

(** C1: after a completed walk the three buckets hold, in walk order, the
    processed paths (those not ending in the ignored extension) selected by
    the extractor's outcome and the target year alone: a valid timestamp of
    the target year goes to matching, a valid timestamp of another year and
    [NO_METADATA] go to non-matching, [FAILED_TO_READ] and
    [INVALID_TIMESTAMP_FORMAT] go to failed with the result name
    appended. *)
Theorem classifier_buckets
    (strptime : string → string → option datetime)
    (self : MetadataProcessor) (w : World) (search_path : string)
    (targetYear : Z) (b : Buckets) :
  walk_loop strptime self w search_path targetYear = Ret b →
  (matching_files b =
     filter (lands_in strptime self w targetYear Matching)
       (processed_paths w search_path) ∧
   non_matching_files b =
     filter (lands_in strptime self w targetYear NonMatching)
       (processed_paths w search_path) ∧
   failed_to_read_files b =
     annotated strptime self w
       <$> filter (lands_in strptime self w targetYear Failed)
             (processed_paths w search_path)) ∧
  ∀ p, p ∈ processed_paths w search_path →
    ∃ r ts,
      get_creation_date strptime self w p = Ret (r, ts) ∧
      match r, ts with
      | VALID_CREATION_TIMESTAMP, Some d =>
          if bool_decide (Datetime.year d = targetYear)
          then p ∈ matching_files b else p ∈ non_matching_files b
      | VALID_CREATION_TIMESTAMP, None => False
      | NO_METADATA, _ => p ∈ non_matching_files b
      | FAILED_TO_READ, _ =>
          p +:+ " (error code: FAILED_TO_READ)" ∈ failed_to_read_files b
      | INVALID_TIMESTAMP_FORMAT, _ =>
          p +:+ " (error code: INVALID_TIMESTAMP_FORMAT)" ∈ failed_to_read_files b
      end.
Proof.
  intros Hwalk.
  destruct (walk_loop_buckets strptime self w search_path targetYear b Hwalk)
    as (Hm & Hn & Hf & Hall).
  split; [done|]. intros p Hp.
  rewrite Forall_forall in Hall. destruct (Hall p Hp) as (k & Hk).
  pose proof Hk as ([r ts] & Ho & Hb).
  exists r, ts. split; [done|].
  assert (p ∈ filter (lands_in strptime self w targetYear k)
                (processed_paths w search_path)) as Hin
    by (by apply list_elem_of_filter).
  destruct r; simpl in Hb.
  - destruct ts as [d|]; [|done].
    destruct (bool_decide (Datetime.year d = targetYear));
      simplify_eq; by rewrite ?Hm, ?Hn.
  - simplify_eq. rewrite Hf.
    apply (list_elem_of_fmap_2' _ _ p); [done|].
    unfold annotated. by rewrite Ho.
  - simplify_eq. by rewrite Hn.
  - simplify_eq. rewrite Hf.
    apply (list_elem_of_fmap_2' _ _ p); [done|].
    unfold annotated. by rewrite Ho.
Qed.

Lemma classifier_buckets_witness :
  matching_files
    {| matching_files := ["2020/v.mp4"];
       non_matching_files := ["2020/a.jpg"; "2020/b.jpg"];
       failed_to_read_files :=
         ["2020/w.avi (error code: INVALID_TIMESTAMP_FORMAT)";
          "2020/x.bmp (error code: FAILED_TO_READ)"] |}
  = filter (lands_in Strptime.strptime example_self example_world 2020 Matching)
      (processed_paths example_world "2020").
Proof.
  refine (proj1 (proj1 (classifier_buckets Strptime.strptime example_self
                          example_world "2020" 2020 _ _))).
  vm_compute. reflexivity.
Defined.

(** C6: after a completed walk, on a device that accepts the writes, the
    file [{year}_non_matching_files.txt] holds the non-matching paths one
    per line in the order collected when there are any, and does not exist
    otherwise, whatever was there before; the same holds for
    [{year}_failed_to_read_files.txt] and the failed entries, each of the
    form [{path} (error code: {ResultName})]; no other file is touched. *)
Theorem reports_written_or_removed
    (strptime : string → string → option datetime)
    (self : MetadataProcessor) (w : World) (search_path : string) (year : Z)
    (fs : gmap string string) (b : Buckets) :
  walk_loop strptime self w search_path year = Ret b →
  let after :=
    process_directory strptime self w search_path year
      {| files := fs; quota := None |} in
  after.1 = Ret () ∧
  files after.2 !! (str year +:+ "_non_matching_files.txt") =
    match non_matching_files b with
    | [] => None
    | _ => Some (lines_text (non_matching_files b))
    end ∧
  files after.2 !! (str year +:+ "_failed_to_read_files.txt") =
    match failed_to_read_files b with
    | [] => None
    | _ => Some (lines_text (failed_to_read_files b))
    end ∧
  (∀ entry, entry ∈ failed_to_read_files b →
     ∃ path r ts,
       get_creation_date strptime self w path = Ret (r, ts) ∧
       entry = path +:+ " (error code: " +:+ name r +:+ ")") ∧
  (∀ other,
     other ≠ str year +:+ "_non_matching_files.txt" →
     other ≠ str year +:+ "_failed_to_read_files.txt" →
     files after.2 !! other = fs !! other).
Proof.
  intros Hwalk after. subst after.
  rewrite process_directory_reports, Hwalk. cbn [fst snd files].
  split; [done|]. split; [|split; [|split]].
  - rewrite lookup_report, decide_False
      by (intros H; by apply (report_names_differ year)).
    by rewrite lookup_report, decide_True.
  - by rewrite lookup_report, decide_True.
  - intros entry Hentry.
    destruct (walk_loop_buckets strptime self w search_path year b Hwalk)
      as (_ & _ & Hf & _).
    rewrite Hf in Hentry.
    apply list_elem_of_fmap in Hentry as (path & -> & Hpath).
    apply list_elem_of_filter in Hpath as [Hfailed _].
    apply annotated_failed in Hfailed as (r & _ & [ts Hts] & ->).
    by exists path, r, ts.
  - intros other Hnm Hfl. by rewrite !lookup_report, !decide_False.
Qed.

Lemma reports_written_or_removed_witness :
  files
    (process_directory Strptime.strptime example_self example_world "2020" 2020
       {| files := {[ "2020_non_matching_files.txt" := "stale" ]};
          quota := None |}).2
    !! (str 2020 +:+ "_non_matching_files.txt")
  = Some (lines_text ["2020/a.jpg"; "2020/b.jpg"]).
Proof.
  refine (proj1 (proj2 (reports_written_or_removed Strptime.strptime
                          example_self example_world "2020" 2020
                          {[ "2020_non_matching_files.txt" := "stale" ]}
                          {| matching_files := ["2020/v.mp4"];
                             non_matching_files := ["2020/a.jpg"; "2020/b.jpg"];
                             failed_to_read_files :=
                               ["2020/w.avi (error code: INVALID_TIMESTAMP_FORMAT)";
                                "2020/x.bmp (error code: FAILED_TO_READ)"] |}
                          _))).
  vm_compute. reflexivity.
Defined.

(** C7 as stated fails: on a device that takes no more text, the run on
    the example archive ends in [OSError], raised when the report is
    closed, and the non-matching report, which held the entry of an earlier
    run, is left empty: neither unchanged nor holding the bucket. *)
Lemma report_truncated_when_write_fails :
  let before :=
    {| files := {[ "2020_non_matching_files.txt" := "2020/old.jpg" +:+ nl ]};
       quota := Some 0 |} in
  let after :=
    process_directory Strptime.strptime example_self example_world "2020" 2020
      before in
  after.1 = Raise OSError ∧
  files after.2 !! "2020_non_matching_files.txt" = Some "" ∧
  files after.2 !! "2020_non_matching_files.txt"
    ≠ files before !! "2020_non_matching_files.txt" ∧
  files after.2 !! "2020_non_matching_files.txt"
    ≠ Some (lines_text ["2020/a.jpg"; "2020/b.jpg"]).
Proof.
  assert ((process_directory Strptime.strptime example_self example_world
             "2020" 2020
             {| files := {[ "2020_non_matching_files.txt" := "2020/old.jpg" +:+ nl ]};
                quota := Some 0 |}).1 = Raise OSError) as Hr
    by (vm_compute; reflexivity).
  assert (files (process_directory Strptime.strptime example_self example_world
             "2020" 2020
             {| files := {[ "2020_non_matching_files.txt" := "2020/old.jpg" +:+ nl ]};
                quota := Some 0 |}).2 !! "2020_non_matching_files.txt"
          = Some "") as Hf
    by (vm_compute; reflexivity).
  cbv zeta. rewrite Hr, Hf. repeat split; [|discriminate].
  cbn [files]. by rewrite lookup_singleton_eq.
Qed.

(** C7, amended: the reports are written only after the walk has ended (a
    walk that raises leaves the directory as it was, a completed one is
    followed by the two writes); a report with entries is truncated when
    opened, so what it held before is lost, and is then left holding the
    first [k] characters of its text, a start of the text that may end
    inside an entry: all of the text exactly when the device takes all of
    it, and less, with [OSError] raised by a [write] or at the close,
    otherwise; no other file changes. *)
Theorem report_prefix_written_after_walk :
  (∀ (strptime : string → string → option datetime) (self : MetadataProcessor)
     (w : World) (search_path : string) (year : Z) (d : Disk),
      process_directory strptime self w search_path year d =
      match walk_loop strptime self w search_path year with
      | Raise e => (Raise e, d)
      | Ret b =>
          (write_or_remove (str year +:+ "_non_matching_files.txt")
             (non_matching_files b) ;;
           write_or_remove (str year +:+ "_failed_to_read_files.txt")
             (failed_to_read_files b)) d
      end) ∧
  (∀ (output_file : string) (entries : list string) (fs : gmap string string)
     (q : option nat),
      let after := write_or_remove output_file entries {| files := fs; quota := q |} in
      let text := lines_text entries in
      let k := written q (String.length text) in
      (∀ other, other ≠ output_file → files after.2 !! other = fs !! other) ∧
      match entries with
      | [] => after.1 = Ret () ∧ files after.2 !! output_file = None
      | _ =>
          k ≤ String.length text ∧
          files after.2 !! output_file = Some (first_chars k text) ∧
          (∃ rest, text = first_chars k text +:+ rest) ∧
          (k = String.length text →
           after.1 = Ret () ∧ files after.2 !! output_file = Some text) ∧
          (k < String.length text → after.1 = Raise OSError)
      end).
Proof.
  split.
  - intros strptime self w search_path year d.
    unfold process_directory, lift. unfold mbind at 1, IO_bind at 1.
    by destruct (walk_loop strptime self w search_path year).
  - intros output_file entries fs q after text k. subst after k text.
    rewrite write_or_remove_spec. destruct entries as [|e es].
    + cbn [fst snd files]. split; [|split; [done|]].
      * intros other Hother. by rewrite lookup_delete_ne.
      * by rewrite lookup_delete_eq.
    + cbn [fst snd files]. split; [|split; [|split; [|split; [|split]]]].
      * intros other Hother. by rewrite lookup_insert_ne.
      * destruct q; simpl; lia.
      * by rewrite lookup_insert_eq.
      * apply first_chars_prefix.
      * intros Hk. rewrite decide_True by done. split; [done|].
        rewrite lookup_insert_eq, Hk. by rewrite first_chars_all.
      * intros Hk. rewrite decide_False; [done | lia].
Qed.

(** C9: a second run on the unchanged archive with the same target year
    leaves every file of the directory, the two reports among them, as the
    first run left it; and after a completed walk the reports do not depend
    on what the directory held before. *)
Theorem second_run_same_reports :
  ∀ (strptime : string → string → option datetime) (self : MetadataProcessor)
    (w : World) (search_path : string) (year : Z) (fs : gmap string string),
    run strptime self w search_path year (run strptime self w search_path year fs)
    = run strptime self w search_path year fs ∧
    ∀ b fs',
      walk_loop strptime self w search_path year = Ret b →
      run strptime self w search_path year fs
        !! (str year +:+ "_non_matching_files.txt")
      = run strptime self w search_path year fs'
          !! (str year +:+ "_non_matching_files.txt") ∧
      run strptime self w search_path year fs
        !! (str year +:+ "_failed_to_read_files.txt")
      = run strptime self w search_path year fs'
          !! (str year +:+ "_failed_to_read_files.txt").
Proof.
  intros strptime self w search_path year fs. unfold run.
  rewrite !process_directory_reports.
  destruct (walk_loop strptime self w search_path year) as [b|e] eqn:Hwalk.
  - cbn [snd files]. split.
    + apply map_eq. intros i. rewrite !lookup_report.
      by repeat case_decide.
    + intros b' fs' [= <-]. rewrite !process_directory_reports, Hwalk.
      cbn [snd files]. rewrite !lookup_report.
      split; by repeat case_decide.
  - cbn [snd files]. split; [done|]. intros b' fs' [=].
Qed.

(** ** Further properties of the extractor *)

(** Whatever [Image.open], [_getexif] or [ffmpeg.probe] raises becomes
    [FAILED_TO_READ], and so does a path with neither kind of extension. *)
Theorem collaborator_errors_are_failed_to_read :
  ∀ (strptime : string → string → option datetime) (self : MetadataProcessor)
    (w : World) (file_path : string),
    (∀ e,
       endswith_any (lower file_path) image_files_with_EXIF_metadata = true →
       Image_open w file_path = Raise e →
       get_creation_date strptime self w file_path = Ret (FAILED_TO_READ, None)) ∧
    (∀ img e,
       endswith_any (lower file_path) image_files_with_EXIF_metadata = true →
       Image_open w file_path = Ret img →
       getexif img = Raise e →
       get_creation_date strptime self w file_path = Ret (FAILED_TO_READ, None)) ∧
    (∀ e,
       endswith_any (lower file_path) video_files_for_ffmpeg = true →
       ffmpeg_probe w file_path = Raise e →
       get_creation_date strptime self w file_path = Ret (FAILED_TO_READ, None)) ∧
    (endswith_any (lower file_path) image_files_with_EXIF_metadata = false →
     endswith_any (lower file_path) video_files_for_ffmpeg = false →
     get_creation_date strptime self w file_path = Ret (FAILED_TO_READ, None)).
Proof.
  intros strptime self w file_path. repeat split.
  - intros e Hext Hopen. apply (get_creation_date_caught _ _ _ _ e).
    unfold try_block. by rewrite Hext, Hopen.
  - intros img e Hext Hopen Hexif. apply (get_creation_date_caught _ _ _ _ e).
    unfold try_block. rewrite Hext, Hopen. run_bind. by rewrite Hexif.
  - intros e Hext Hprobe. apply (get_creation_date_caught _ _ _ _ e).
    unfold try_block. by rewrite (video_not_image _ Hext), Hext, Hprobe.
  - intros Hi Hv. unfold get_creation_date, try_block. by rewrite Hi, Hv.
Qed.

(** On an archive whose EXIF values are all [str] objects the extractor
    returns an outcome for every path, with one of the four results. *)
Theorem extractor_total_on_text_metadata
    (strptime : string → string → option datetime)
    (self : MetadataProcessor) (w : World) (file_path : string) :
  str_valued w →
  ∃ r ts, get_creation_date strptime self w file_path = Ret (r, ts).
Proof.
  intros Hw.
  destruct (get_creation_date_returns strptime self w file_path Hw) as [[r ts] H].
  by exists r, ts.
Qed.

Lemma text_world_str_valued : str_valued text_world.
Proof.
  intros file_path img exif_data key v [= <-] [= <-] Hv.
  apply lookup_singleton_Some in Hv as [_ <-]. by eexists.
Qed.

Lemma extractor_total_on_text_metadata_witness :
  ∃ r ts,
    get_creation_date Strptime.strptime example_self text_world "2019/a.jpg"
    = Ret (r, ts).
Proof.
  apply (extractor_total_on_text_metadata Strptime.strptime example_self
           text_world "2019/a.jpg").
  exact text_world_str_valued.
Defined.

(** ** The example archive, run *)

(** The walk over directory [2020] for year 2020: the video of 2020 is
    matching, the picture of 2019 and the picture without EXIF data are
    non-matching, the video with an unparsable date and the [.bmp] file are
    failures, and the [.cr2] file is in no bucket. *)
Example example_walk :
  walk_loop Strptime.strptime example_self example_world "2020" 2020 =
  Ret {| matching_files := ["2020/v.mp4"];
         non_matching_files := ["2020/a.jpg"; "2020/b.jpg"];
         failed_to_read_files :=
           ["2020/w.avi (error code: INVALID_TIMESTAMP_FORMAT)";
            "2020/x.bmp (error code: FAILED_TO_READ)"] |}.
Proof. vm_compute. reflexivity. Qed.

(** The same walk for year 2019 moves the picture of 2019 to matching and
    the video of 2020 to non-matching. *)
Example example_walk_other_year :
  (b ← walk_loop Strptime.strptime example_self example_world "2020" 2019;
   Ret (matching_files b, non_matching_files b)) =
  Ret (["2020/a.jpg"], ["2020/b.jpg"; "2020/v.mp4"]).
Proof. vm_compute. reflexivity. Qed.

(** A run over a directory without files removes the reports of an earlier
    run. *)
Example example_stale_reports_removed :
  run Strptime.strptime example_self example_world "2021" 2021
    {[ "2021_non_matching_files.txt" := "2021/old.jpg" +:+ nl;
       "2021_failed_to_read_files.txt" := "2021/bad.jpg (error code: FAILED_TO_READ)" +:+ nl;
       "notes.txt" := "kept" ]}
  = {[ "notes.txt" := "kept" ]}.
Proof.
  unfold run. rewrite process_directory_reports.
  change (walk_loop Strptime.strptime example_self example_world "2021" 2021)
    with (Ret empty_buckets).
  cbn [snd files empty_buckets failed_to_read_files non_matching_files report].
  apply map_eq. intros i. by vm_compute.
Qed.

(** ** The built-ins of [main] *)

Lemma chars_in_cons (P : ascii → bool) (c : ascii) (s : string) :
  chars_in P (String c s) = P c && chars_in P s.
Proof. reflexivity. Qed.

(** What is known of a digit: it is no whitespace, sign, underscore or
    slash, and it extends a decimal number. *)
Lemma digit_facts (c : ascii) :
  Strptime.digit c = true →
  int_space c = false ∧
  Ascii.eqb c "_" = false ∧ Ascii.eqb c "-" = false ∧
  Ascii.eqb c "+" = false ∧ Ascii.eqb c "/" = false ∧
  ∀ d, ∃ d', uint_of_char c (Some d) = Some d'.
Proof.
  destruct c as [[] [] [] [] [] [] [] []]; intros H; vm_compute in H;
    try discriminate H; repeat split; intros d; eexists; reflexivity.
Qed.

Lemma strip_no_space (s : string) :
  chars_in (λ c, negb (int_space c)) s = true → int_strip s = s.
Proof.
  intros Hs. unfold int_strip.
  assert (int_lstrip s = s) as ->.
  { destruct s as [|c s]; [done|]. rewrite chars_in_cons in Hs.
    apply andb_true_iff in Hs as [Hc _]. simpl.
    by destruct (int_space c). }
  induction s as [|c s IH]; [done|].
  rewrite chars_in_cons in Hs. apply andb_true_iff in Hs as [Hc Hs].
  cbn [int_rstrip]. rewrite (IH Hs).
  destruct s; [|done]. by destruct (int_space c).
Qed.

Lemma chars_in_impl (P Q : ascii → bool) (s : string) :
  (∀ c, P c = true → Q c = true) → chars_in P s = true → chars_in Q s = true.
Proof.
  intros HPQ. induction s as [|c s IH]; [done|].
  rewrite !chars_in_cons, !andb_true_iff. intros [? ?]. auto.
Qed.

Lemma literal_digits_id (after_digit : bool) (s : string) :
  chars_in Strptime.digit s = true →
  after_digit = true ∨ s ≠ "" →
  literal_digits after_digit s = Some s.
Proof.
  revert after_digit. induction s as [|c s IH]; intros after_digit Hs Hne.
  - destruct Hne as [->|?]; done.
  - rewrite chars_in_cons in Hs. apply andb_true_iff in Hs as [Hc Hs].
    destruct (digit_facts c Hc) as (_ & Hu & _).
    cbn [literal_digits]. rewrite Hu, Hc, (IH true Hs) by by left. done.
Qed.

Lemma uint_of_string_digits (s : string) :
  chars_in Strptime.digit s = true →
  ∃ u, NilEmpty.uint_of_string s = Some u.
Proof.
  induction s as [|c s IH]; [by eexists|].
  rewrite chars_in_cons. intros [Hc Hs]%andb_true_iff.
  destruct (IH Hs) as [u Hu]. cbn [NilEmpty.uint_of_string]. rewrite Hu.
  by destruct (digit_facts c Hc) as (_ & _ & _ & _ & _ & Hd).
Qed.

(** [int] does not raise on a non-empty string of digits. *)
Lemma int_digits (s : string) :
  chars_in Strptime.digit s = true → s ≠ "" →
  ∃ n, int s = Ret n.
Proof.
  intros Hs Hne. unfold int.
  rewrite strip_no_space; cycle 1.
  { eapply chars_in_impl; [|exact Hs]. intros c Hc.
    by destruct (digit_facts c Hc) as [-> _]. }
  destruct s as [|c s]; [done|].
  pose proof Hs as Hs'. rewrite chars_in_cons in Hs'.
  apply andb_true_iff in Hs' as [Hc _].
  destruct (digit_facts c Hc) as (_ & _ & -> & -> & _).
  unfold unsigned_literal. rewrite literal_digits_id by (done || by right).
  destruct (uint_of_string_digits _ Hs) as [u Hu].
  cbn [mbind option_bind]. unfold NilZero.uint_of_string. rewrite Hu.
  by eexists.
Qed.

Lemma string_of_uint_digits (d : Decimal.uint) :
  chars_in Strptime.digit (NilEmpty.string_of_uint d) = true.
Proof. induction d; [done|by cbn [NilEmpty.string_of_uint]; rewrite chars_in_cons, IHd..]. Qed.

Lemma unsigned_literal_to_uint (p : positive) :
  unsigned_literal (NilEmpty.string_of_uint (Pos.to_uint p)) = Ret (Z.pos p).
Proof.
  pose proof (Unsigned.to_uint_nonnil p) as Hnil.
  unfold unsigned_literal.
  rewrite literal_digits_id; [|apply string_of_uint_digits|right].
  - cbn [mbind option_bind].
    assert (NilEmpty.string_of_uint (Pos.to_uint p)
            = NilZero.string_of_uint (Pos.to_uint p)) as ->
      by (by destruct (Pos.to_uint p)).
    rewrite NilZero.usu by done.
    f_equal. exact (DecimalZ.of_to (Z.pos p)).
  - by destruct (Pos.to_uint p).
Qed.

(** [int(str(n)) == n] *)
Lemma int_str (n : Z) : int (str n) = Ret n.
Proof.
  destruct n as [|p|p]; [done| |].
  - unfold str. cbn [Z.to_int NilZero.string_of_int].
    pose proof (Unsigned.to_uint_nonnil p) as Hnil.
    assert (NilZero.string_of_uint (Pos.to_uint p)
            = NilEmpty.string_of_uint (Pos.to_uint p)) as Heq
      by (by destruct (Pos.to_uint p)).
    rewrite Heq. unfold int.
    rewrite strip_no_space; cycle 1.
    { eapply chars_in_impl; [|apply string_of_uint_digits]. intros c Hc.
      by destruct (digit_facts c Hc) as [-> _]. }
    pose proof (string_of_uint_digits (Pos.to_uint p)) as Hd.
    pose proof (unsigned_literal_to_uint p) as Hu.
    destruct (NilEmpty.string_of_uint (Pos.to_uint p)) as [|c s] eqn:Hs.
    { by destruct (Pos.to_uint p). }
    rewrite chars_in_cons in Hd. apply andb_true_iff in Hd as [Hc _].
    by destruct (digit_facts c Hc) as (_ & _ & -> & -> & _).
  - unfold str. cbn [Z.to_int NilZero.string_of_int].
    pose proof (Unsigned.to_uint_nonnil p) as Hnil.
    assert (NilZero.string_of_uint (Pos.to_uint p)
            = NilEmpty.string_of_uint (Pos.to_uint p)) as Heq
      by (by destruct (Pos.to_uint p)).
    rewrite Heq. unfold int.
    rewrite strip_no_space; cycle 1.
    { rewrite chars_in_cons. apply andb_true_iff. split; [done|].
      eapply chars_in_impl; [|apply string_of_uint_digits]. intros c Hc.
      by destruct (digit_facts c Hc) as [-> _]. }
    change (Ascii.eqb "-" "-") with true. cbn match.
    by rewrite unsigned_literal_to_uint.
Qed.

Lemma basename_from_app (cur a b : string) :
  basename_from cur (a +:+ b) = basename_from (basename_from cur a) b.
Proof.
  revert cur. induction a as [|c a IH]; intros cur; [done|].
  change (String c a +:+ b) with (String c (a +:+ b)).
  cbn [basename_from]. by destruct (Ascii.eqb c "/").
Qed.

Lemma basename_from_no_slash (cur b : string) :
  chars_in (λ c, negb (Ascii.eqb c "/")) b = true →
  basename_from cur b = cur +:+ b.
Proof.
  revert cur. induction b as [|c b IH]; intros cur.
  - by rewrite string_app_nil_r.
  - rewrite chars_in_cons. intros [Hc Hb]%andb_true_iff.
    cbn [basename_from]. apply negb_true_iff in Hc. rewrite Hc.
    by rewrite (IH _ Hb), string_app_assoc.
Qed.

Lemma string_of_list_ascii_app (k l : list ascii) :
  String.string_of_list_ascii (k ++ l) =
  String.string_of_list_ascii k +:+ String.string_of_list_ascii l.
Proof.
  induction k as [|c k IH]; [done|].
  cbn [app String.string_of_list_ascii]. by rewrite IH.
Qed.

(** A path that ends with a slash has an empty base name. *)
Lemma basename_from_endswith_slash (cur a : string) :
  endswith a "/" = true → basename_from cur a = "".
Proof.
  intros [k Hk]%endswith_suffix.
  rewrite <- (String.string_of_list_ascii_of_string a), Hk.
  rewrite string_of_list_ascii_app, basename_from_app.
  by rewrite String.string_of_list_ascii_of_string.
Qed.

(** [os.path.basename(os.path.join(a, b)) == b] for a name without slash. *)
Lemma basename_join (a b : string) :
  chars_in (λ c, negb (Ascii.eqb c "/")) b = true →
  os_path_basename (os_path_join a b) = b.
Proof.
  intros Hb. unfold os_path_basename, os_path_join.
  assert (String.prefix "/" b = false) as ->.
  { destruct b as [|c b]; [done|]. rewrite chars_in_cons in Hb.
    apply andb_true_iff in Hb as [Hc _]. apply negb_true_iff in Hc.
    cbn -[ascii_dec]. destruct (ascii_dec "/" c) as [<-|]; done. }
  case_bool_decide as Ha; cbn [orb].
  - subst a. by rewrite basename_from_no_slash.
  - destruct (endswith a "/") eqn:Hslash.
    + rewrite basename_from_app, (basename_from_endswith_slash "" a) by done.
      by rewrite basename_from_no_slash.
    + rewrite !basename_from_app. cbn [basename_from].
      change (Ascii.eqb "/" "/") with true. cbn match.
      by rewrite basename_from_no_slash.
Qed.

Lemma str_chars (n : Z) :
  chars_in (λ c, Strptime.digit c || Ascii.eqb c "-") (str n) = true.
Proof.
  assert (∀ d, chars_in (λ c, Strptime.digit c || Ascii.eqb c "-")
                 (NilZero.string_of_uint d) = true) as Hd.
  { intros d. destruct d; [done|..];
      (apply (chars_in_impl Strptime.digit); [intros c Hc; by rewrite Hc|]);
      apply (string_of_uint_digits (_ d)). }
  unfold str. destruct (Z.to_int n) as [d|d]; cbn [NilZero.string_of_int].
  - apply Hd.
  - rewrite chars_in_cons. by rewrite Hd.
Qed.

Lemma str_no_slash (n : Z) :
  chars_in (λ c, negb (Ascii.eqb c "/")) (str n) = true.
Proof.
  eapply chars_in_impl; [|apply str_chars]. cbv beta. intros c Hc.
  apply orb_true_iff in Hc as [Hc|Hc].
  - by destruct (digit_facts c Hc) as (_ & _ & _ & _ & -> & _).
  - apply Ascii.eqb_eq in Hc as ->. done.
Qed.

(** [str] is injective, as [int] reads the number back. *)
Lemma str_inj (n m : Z) : str n = str m → n = m.
Proof.
  intros H. pose proof (int_str n) as Hn. rewrite H, int_str in Hn. congruence.
Qed.

(** A string written by [str] followed by an underscore splits in one way
    only. *)
Lemma underscore_split (s s' a b : string) :
  chars_in (λ c, negb (Ascii.eqb c "_")) s = true →
  chars_in (λ c, negb (Ascii.eqb c "_")) s' = true →
  s +:+ String "_" a = s' +:+ String "_" b →
  s = s'.
Proof.
  revert s'. induction s as [|c s IH]; intros [|c' s'] Hs Hs' Heq; [done|..].
  - rewrite chars_in_cons in Hs'. apply andb_true_iff in Hs' as [Hc _].
    apply negb_true_iff in Hc. injection Heq as <- _. done.
  - rewrite chars_in_cons in Hs. apply andb_true_iff in Hs as [Hc _].
    apply negb_true_iff in Hc. injection Heq as -> _. done.
  - rewrite chars_in_cons in Hs, Hs'.
    apply andb_true_iff in Hs as [_ Hs]. apply andb_true_iff in Hs' as [_ Hs'].
    injection Heq as -> Heq. f_equal. by apply IH.
Qed.

Lemma str_no_underscore (n : Z) :
  chars_in (λ c, negb (Ascii.eqb c "_")) (str n) = true.
Proof.
  eapply chars_in_impl; [|apply str_chars]. cbv beta. intros c Hc.
  apply orb_true_iff in Hc as [Hc|Hc].
  - by destruct (digit_facts c Hc) as (_ & -> & _).
  - apply Ascii.eqb_eq in Hc as ->. done.
Qed.

(** The report names of two different years differ, whatever the two
    suffixes. *)
Lemma report_names_of_years (year year' : Z) (a b : string) :
  str year +:+ String "_" a = str year' +:+ String "_" b → year = year'.
Proof.
  intros H. apply str_inj.
  eapply underscore_split; [apply str_no_underscore..|exact H].
Qed.

(** ** Further properties: the processor and the extractor *)

(** One entry of the tag table sets the id whose name it carries and
    leaves the rest of the processor alone. *)
Lemma init_step_fields (self : MetadataProcessor) (tag : Z) (value : string) :
  exif_DateTimeOriginal_tag (init_step self (tag, value)) =
    (if decide (value = "DateTimeOriginal") then tag
     else exif_DateTimeOriginal_tag self) ∧
  exit_DateTimeDigitized_tag (init_step self (tag, value)) =
    (if decide (value = "DateTimeDigitized") then tag
     else exit_DateTimeDigitized_tag self) ∧
  exif_DateTime_tag (init_step self (tag, value)) =
    (if decide (value = "DateTime") then tag else exif_DateTime_tag self) ∧
  verbose (init_step self (tag, value)) = verbose self.
Proof.
  unfold init_step.
  repeat case_bool_decide; repeat case_decide; subst; done.
Qed.

(** [__init__] resolves each of the three tag names to the key of the last
    entry of the tag table carrying that name, leaves the id at 0 when no
    entry carries it, and stores the verbosity unchanged. *)
Theorem init_resolves_tags :
  ∀ (TAGS : list (Z * string)) (verbosity : Z),
    let tag_of (tag_name : string) :=
      default 0%Z
        (fst <$> last (filter (λ item : Z * string, item.2 = tag_name) TAGS)) in
    exif_DateTimeOriginal_tag (init TAGS verbosity) = tag_of "DateTimeOriginal" ∧
    exit_DateTimeDigitized_tag (init TAGS verbosity) = tag_of "DateTimeDigitized" ∧
    exif_DateTime_tag (init TAGS verbosity) = tag_of "DateTime" ∧
    verbose (init TAGS verbosity) = verbosity.
Proof.
  intros TAGS verbosity. cbv zeta. unfold init.
  induction TAGS as [|[tag value] TAGS IH] using rev_ind; [done|].
  rewrite fold_left_app. cbn [fold_left].
  destruct (init_step_fields
              (fold_left init_step TAGS
                 {| exif_DateTimeOriginal_tag := 0;
                    exit_DateTimeDigitized_tag := 0;
                    exif_DateTime_tag := 0;
                    verbose := verbosity |}) tag value)
    as (-> & -> & -> & ->).
  destruct IH as (-> & -> & -> & ->).
  rewrite !filter_app, !filter_cons, !filter_nil. cbn [snd].
  repeat case_decide; rewrite ?last_snoc, ?app_nil_r; done.
Qed.

(** For a picture whose EXIF dictionary was read, the outcome depends on
    the dictionary only through the first date tag present: there is no
    fallback to a later tag when the first one present is empty or does not
    parse, and no other entry of the dictionary matters. *)
Theorem image_outcome_from_first_tag
    (strptime : string → string → option datetime)
    (self : MetadataProcessor) (w w' : World) (file_path : string)
    (img img' : Image) (exif_data exif_data' : gmap Z pyobj) :
  endswith_any (lower file_path) image_files_with_EXIF_metadata = true →
  Image_open w file_path = Ret img → getexif img = Ret (Some exif_data) →
  Image_open w' file_path = Ret img' → getexif img' = Ret (Some exif_data') →
  image_candidate self exif_data = image_candidate self exif_data' →
  get_creation_date strptime self w file_path
  = get_creation_date strptime self w' file_path.
Proof.
  intros Hext Hopen Hexif Hopen' Hexif' Hc. unfold get_creation_date.
  rewrite (try_block_image self w file_path img exif_data Hext Hopen Hexif).
  rewrite (try_block_image self w' file_path img' exif_data' Hext Hopen' Hexif').
  by rewrite Hc.
Qed.

Lemma image_outcome_from_first_tag_witness :
  get_creation_date Strptime.strptime example_self example_world "2020/d.png"
  = get_creation_date Strptime.strptime example_self
      {| Image_open _ :=
           Ret {| getexif := Ret (Some {[ 36867%Z := PyStr "";
                                          36868%Z := PyInt 7 ]}) |};
         ffmpeg_probe _ := Raise ffmpeg_Error;
         os_walk _ := [] |}
      "2020/d.png".
Proof.
  apply (image_outcome_from_first_tag Strptime.strptime example_self
           example_world _ "2020/d.png"
           {| getexif := Ret (Some {[ 36867%Z := PyStr "";
                                      306%Z := PyStr "2020:01:01 00:00:00" ]}) |}
           {| getexif := Ret (Some {[ 36867%Z := PyStr "";
                                      36868%Z := PyInt 7 ]}) |}
           {[ 36867%Z := PyStr ""; 306%Z := PyStr "2020:01:01 00:00:00" ]}
           {[ 36867%Z := PyStr ""; 36868%Z := PyInt 7 ]}).
  - vm_compute. reflexivity.
  - reflexivity.
  - reflexivity.
  - reflexivity.
  - reflexivity.
  - vm_compute. reflexivity.
Defined.

Lemma for_fold_ext {A B : Type} (body body' : B → A → res B) (xs : list A) (b : B) :
  (∀ b x, x ∈ xs → body b x = body' b x) →
  for_fold body xs b = for_fold body' xs b.
Proof.
  revert b. induction xs as [|x xs IH]; intros b Hext; [done|].
  cbn [for_fold]. rewrite (Hext b x) by left.
  unfold mbind, res_bind. destruct (body' b x) as [b1|e]; [|done].
  apply IH. intros b' y Hy. apply Hext. by right.
Qed.

(** The extractor asks Pillow about pictures only and ffprobe about videos
    only. *)
Lemma get_creation_date_frame
    (strptime : string → string → option datetime)
    (self : MetadataProcessor) (w w' : World) (file_path : string) :
  (endswith_any (lower file_path) image_files_with_EXIF_metadata = true →
   Image_open w file_path = Image_open w' file_path) →
  (endswith_any (lower file_path) video_files_for_ffmpeg = true →
   ffmpeg_probe w file_path = ffmpeg_probe w' file_path) →
  get_creation_date strptime self w file_path
  = get_creation_date strptime self w' file_path.
Proof.
  intros Hi Hv. unfold get_creation_date, try_block.
  destruct (endswith_any (lower file_path) image_files_with_EXIF_metadata).
  - by rewrite Hi.
  - destruct (endswith_any (lower file_path) video_files_for_ffmpeg); [|done].
    by rewrite Hv.
Qed.

(** The classification of a directory reads the media tree only through
    the walk, through [Image.open] on paths with a picture extension and
    through [ffmpeg.probe] on paths with a video extension: no other file is
    opened or probed, whatever its content. *)
Theorem classification_reads_media_only
    (strptime : string → string → option datetime)
    (self : MetadataProcessor) (w w' : World) (search_path : string) (year : Z) :
  os_walk w search_path = os_walk w' search_path →
  (∀ p, endswith_any (lower p) image_files_with_EXIF_metadata = true →
        Image_open w p = Image_open w' p) →
  (∀ p, endswith_any (lower p) video_files_for_ffmpeg = true →
        ffmpeg_probe w p = ffmpeg_probe w' p) →
  walk_loop strptime self w search_path year
  = walk_loop strptime self w' search_path year.
Proof.
  intros Hwalk Hi Hv. rewrite !walk_loop_flat. unfold walked_paths.
  rewrite Hwalk. apply for_fold_ext. intros b p _. unfold classify_file.
  by rewrite (get_creation_date_frame strptime self w w' p (Hi p) (Hv p)).
Qed.

Lemma classification_reads_media_only_witness :
  walk_loop Strptime.strptime example_self example_world "2020" 2020
  = walk_loop Strptime.strptime example_self
      {| Image_open p :=
           if endswith_any (lower p) image_files_with_EXIF_metadata
           then example_exif p else Ret {| getexif := Ret None |};
         ffmpeg_probe p :=
           if endswith_any (lower p) video_files_for_ffmpeg
           then example_probe p else Ret {| probe_format := None |};
         os_walk := os_walk example_world |}
      "2020" 2020.
Proof.
  apply classification_reads_media_only.
  - reflexivity.
  - intros p Hp. cbn [Image_open example_world]. by rewrite Hp.
  - intros p Hp. cbn [ffmpeg_probe example_world]. by rewrite Hp.
Defined.

Lemma raw_extension_incomparable :
  forallb (λ a, negb (comparable ignore_files a))
    (image_files_with_EXIF_metadata ++ video_files_for_ffmpeg) = true.
Proof. vm_compute. reflexivity. Qed.

Lemma raw_not_media (s : string) :
  endswith s ignore_files = true →
  endswith_any s image_files_with_EXIF_metadata = false ∧
  endswith_any s video_files_for_ffmpeg = false.
Proof.
  intros Hraw.
  assert (∀ a, In a (image_files_with_EXIF_metadata ++ video_files_for_ffmpeg) →
               endswith s a = false) as Hno.
  { intros a Ha. destruct (endswith s a) eqn:Hsa; [|done].
    pose proof raw_extension_incomparable as H.
    rewrite forallb_forall in H. specialize (H a Ha).
    by rewrite (endswith_comparable s ignore_files a Hraw Hsa) in H. }
  split; apply not_true_is_false; intros (a & Ha & Hsa)%existsb_exists.
  - rewrite Hno in Hsa; [done|]. apply in_or_app. by left.
  - rewrite Hno in Hsa; [done|]. apply in_or_app. by right.
Qed.

(** A raw file handed to the extractor itself, as the single-file mode
    does, is an unsupported type: the outcome is [FAILED_TO_READ] and the
    file is not opened. The directory walk alone skips such files. *)
Theorem raw_file_is_failed_to_read
    (strptime : string → string → option datetime)
    (self : MetadataProcessor) (w : World) (file_path : string) :
  endswith (lower file_path) ignore_files = true →
  get_creation_date strptime self w file_path = Ret (FAILED_TO_READ, None).
Proof.
  intros [Hi Hv]%raw_not_media.
  unfold get_creation_date, try_block. by rewrite Hi, Hv.
Qed.

Lemma raw_file_is_failed_to_read_witness :
  get_creation_date Strptime.strptime example_self example_world "2020/y.CR2"
  = Ret (FAILED_TO_READ, None).
Proof.
  apply raw_file_is_failed_to_read. vm_compute. reflexivity.
Defined.

(** A video whose [creation_time] tag is the empty string is reported as
    [INVALID_TIMESTAMP_FORMAT], not as [NO_METADATA]: unlike the picture
    branch, the video branch has no test for an empty candidate, and the
    four formats fail on it. *)
Theorem empty_creation_time_is_invalid
    (strptime : string → string → option datetime)
    (self : MetadataProcessor) (w : World) (file_path : string) (probe : Probe) :
  endswith_any (lower file_path) video_files_for_ffmpeg = true →
  ffmpeg_probe w file_path = Ret probe →
  creation_time probe = Some "" →
  Forall (λ f, strptime "" f = None) video_formats →
  get_creation_date strptime self w file_path
  = Ret (INVALID_TIMESTAMP_FORMAT, None).
Proof.
  intros Hext Hprobe Hct Hfail.
  pose proof (try_block_video self w file_path probe Hext Hprobe) as Hb.
  rewrite Hct in Hb.
  rewrite (get_creation_date_str strptime self w file_path "" _ Hb).
  apply (parse_dates_none strptime "" video_formats) in Hfail.
  unfold video_formats in Hfail. by rewrite Hfail.
Qed.

Lemma empty_creation_time_is_invalid_witness :
  get_creation_date Strptime.strptime example_self
    {| Image_open := example_exif;
       ffmpeg_probe _ :=
         Ret {| probe_format := Some {| format_tags :=
                  Some {[ "creation_time" := "" ]} |} |};
       os_walk _ := [] |}
    "clip.MOV"
  = Ret (INVALID_TIMESTAMP_FORMAT, None).
Proof.
  apply (empty_creation_time_is_invalid Strptime.strptime example_self _
           "clip.MOV"
           {| probe_format := Some {| format_tags :=
                Some {[ "creation_time" := "" ]} |} |}).
  - vm_compute. reflexivity.
  - reflexivity.
  - vm_compute. reflexivity.
  - unfold video_formats. repeat constructor; vm_compute; reflexivity.
Defined.

(** ** Further properties: the classifier and the reports *)

Section ClassifierMore.

Context (strptime : string → string → option datetime).
Context (self : MetadataProcessor) (w : World) (year : Z).

(** The loop body raises only when the extractor does. *)
Lemma classify_file_returns (b : Buckets) (file_path : string) (o : outcome) :
  get_creation_date strptime self w file_path = Ret o →
  ∃ b', classify_file strptime self w year b file_path = Ret b'.
Proof.
  intros Ho. unfold classify_file.
  destruct (endswith (lower file_path) ignore_files); [by eexists|].
  rewrite Ho. run_bind. destruct o as [r ts].
  destruct r; simpl; try by eexists.
  destruct ts as [d|].
  - destruct (bool_decide (Datetime.year d = year)); by eexists.
  - apply get_creation_date_outcome in Ho. destruct Ho as [_ Ho].
    by destruct (Ho eq_refl).
Qed.

Lemma for_fold_classify_raises (paths : list string) (b : Buckets)
    (file_path : string) (e : exn) :
  file_path ∈ paths →
  endswith (lower file_path) ignore_files = false →
  get_creation_date strptime self w file_path = Raise e →
  for_fold (classify_file strptime self w year) paths b = Raise TypeError.
Proof.
  intros Hin Hskip Hraise. revert b.
  induction paths as [|p paths IH]; intros b; [by apply elem_of_nil in Hin|].
  cbn [for_fold]. unfold mbind, res_bind.
  destruct (get_creation_date strptime self w p) as [o|e'] eqn:Hp.
  - destruct (classify_file_returns b p o Hp) as [b' ->].
    apply IH. apply elem_of_cons in Hin as [->|Hin]; [congruence|done].
  - unfold classify_file.
    destruct (endswith (lower p) ignore_files) eqn:Hp_skip.
    + apply IH. apply elem_of_cons in Hin as [->|Hin]; [congruence|done].
    + rewrite Hp. by apply get_creation_date_raises in Hp as [-> _].
Qed.

(** Every processed path is counted in exactly one bucket. *)
Lemma buckets_count (paths : list string) :
  Forall (λ p, ∃ k, lands_in strptime self w year k p) paths →
  length (filter (lands_in strptime self w year Matching) paths)
  + length (filter (lands_in strptime self w year NonMatching) paths)
  + length (filter (lands_in strptime self w year Failed) paths)
  = length paths.
Proof.
  induction 1 as [|p paths [k Hk] _ IH]; [done|].
  assert (∀ k', k' ≠ k → ¬ lands_in strptime self w year k' p) as Hne.
  { intros k' Hk' H'. apply Hk'. by eapply lands_in_unique. }
  destruct k;
    rewrite (filter_cons_True _ _ _ Hk);
    rewrite !filter_cons_False by (apply Hne; discriminate);
    cbn [length]; lia.
Qed.

End ClassifierMore.

(** When the extractor raises on one of the processed files, the whole run
    of the directory ends in [TypeError] and no report file is written,
    truncated or removed (reports of an earlier run stay as they are). *)
Theorem extractor_error_aborts_directory
    (strptime : string → string → option datetime)
    (self : MetadataProcessor) (w : World) (search_path : string) (year : Z)
    (file_path : string) (e : exn) (d : Disk) :
  file_path ∈ processed_paths w search_path →
  get_creation_date strptime self w file_path = Raise e →
  walk_loop strptime self w search_path year = Raise TypeError ∧
  process_directory strptime self w search_path year d = (Raise TypeError, d).
Proof.
  intros Hin Hraise.
  apply list_elem_of_filter in Hin as [Hskip Hin].
  assert (walk_loop strptime self w search_path year = Raise TypeError) as Hwalk.
  { rewrite walk_loop_flat.
    by apply (for_fold_classify_raises strptime self w year _ _ file_path e). }
  split; [done|].
  unfold process_directory, lift. unfold mbind at 1, IO_bind at 1.
  by rewrite Hwalk.
Qed.

Lemma extractor_error_aborts_directory_witness :
  process_directory Strptime.strptime example_self
    {| Image_open := example_exif;
       ffmpeg_probe := example_probe;
       os_walk _ := [("2020", [], ["a.jpg"; "c.JPG"; "b.jpg"])] |}
    "2020" 2020
    {| files := {[ "2020_non_matching_files.txt" := "2020/old.jpg" +:+ nl ]};
       quota := None |}
  = (Raise TypeError,
     {| files := {[ "2020_non_matching_files.txt" := "2020/old.jpg" +:+ nl ]};
        quota := None |}).
Proof.
  refine (proj2 (extractor_error_aborts_directory Strptime.strptime example_self
                   _ "2020" 2020 "2020/c.JPG" TypeError _ _ _)).
  - vm_compute. apply list_elem_of_In. right. left. reflexivity.
  - vm_compute. reflexivity.
Defined.

(** After a completed walk the three buckets together hold as many entries
    as there are processed paths (the total excludes the skipped raw
    files); matching and non-matching paths come from the walk, none of
    them has the ignored extension, and no path is in both. *)
Theorem buckets_partition_processed
    (strptime : string → string → option datetime)
    (self : MetadataProcessor) (w : World) (search_path : string) (year : Z)
    (b : Buckets) :
  walk_loop strptime self w search_path year = Ret b →
  length (matching_files b) + length (non_matching_files b)
  + length (failed_to_read_files b)
  = length (processed_paths w search_path) ∧
  (∀ p, p ∈ matching_files b ++ non_matching_files b →
        p ∈ walked_paths w search_path ∧
        endswith (lower p) ignore_files = false) ∧
  (∀ p, p ∈ matching_files b → p ∉ non_matching_files b).
Proof.
  intros Hwalk.
  destruct (walk_loop_buckets strptime self w search_path year b Hwalk)
    as (Hm & Hn & Hf & Hall).
  rewrite Hm, Hn, Hf, length_fmap. split; [by apply buckets_count|]. split.
  - intros p [Hp|Hp]%elem_of_app;
      apply list_elem_of_filter in Hp as [_ Hp];
      apply list_elem_of_filter in Hp as [? ?]; done.
  - intros p [Hm' _]%list_elem_of_filter [Hn' _]%list_elem_of_filter.
    by pose proof (lands_in_unique strptime self w year _ _ p Hm' Hn').
Qed.

Lemma buckets_partition_processed_witness :
  length ["2020/v.mp4"] + length ["2020/a.jpg"; "2020/b.jpg"]
  + length ["2020/w.avi (error code: INVALID_TIMESTAMP_FORMAT)";
            "2020/x.bmp (error code: FAILED_TO_READ)"]
  = length (processed_paths example_world "2020").
Proof.
  refine (proj1 (buckets_partition_processed Strptime.strptime example_self
                   example_world "2020" 2020
                   {| matching_files := ["2020/v.mp4"];
                      non_matching_files := ["2020/a.jpg"; "2020/b.jpg"];
                      failed_to_read_files :=
                        ["2020/w.avi (error code: INVALID_TIMESTAMP_FORMAT)";
                         "2020/x.bmp (error code: FAILED_TO_READ)"] |} _)).
  vm_compute. reflexivity.
Defined.

(** Writing or removing one report leaves every other file alone, whether
    or not the device fails. *)
Lemma write_or_remove_frame (output_file other : string) (entries : list string)
    (d : Disk) :
  other ≠ output_file →
  files (write_or_remove output_file entries d).2 !! other = files d !! other.
Proof.
  intros Hother. destruct d as [fs q]. rewrite write_or_remove_spec.
  destruct entries; cbn [snd files].
  - by rewrite lookup_delete_ne.
  - by rewrite lookup_insert_ne.
Qed.

Lemma process_directory_frame
    (strptime : string → string → option datetime)
    (self : MetadataProcessor) (w : World) (search_path : string) (year : Z)
    (d : Disk) (other : string) :
  other ≠ str year +:+ "_non_matching_files.txt" →
  other ≠ str year +:+ "_failed_to_read_files.txt" →
  files (process_directory strptime self w search_path year d).2 !! other
  = files d !! other.
Proof.
  intros Hnm Hfl. unfold process_directory, lift.
  unfold mbind at 1, IO_bind at 1.
  destruct (walk_loop strptime self w search_path year) as [b|e]; [|done].
  unfold mbind, IO_bind.
  pose proof (write_or_remove_frame (str year +:+ "_non_matching_files.txt")
                other (non_matching_files b) d Hnm) as H1.
  destruct (write_or_remove _ (non_matching_files b) d) as [[[]|e] d1];
    [|done].
  rewrite <- H1. by apply write_or_remove_frame.
Qed.

(** When the device takes less than the text of the non-matching report,
    the run ends in [OSError], the non-matching report is left holding the
    characters the device took, and the failed-to-read report is neither
    written nor removed: what an earlier run left there stays. *)
Theorem failed_write_keeps_second_report
    (strptime : string → string → option datetime)
    (self : MetadataProcessor) (w : World) (search_path : string) (year : Z)
    (fs : gmap string string) (q : nat) (b : Buckets) :
  walk_loop strptime self w search_path year = Ret b →
  q < String.length (lines_text (non_matching_files b)) →
  let after :=
    process_directory strptime self w search_path year
      {| files := fs; quota := Some q |} in
  after.1 = Raise OSError ∧
  files after.2 !! (str year +:+ "_non_matching_files.txt")
    = Some (first_chars q (lines_text (non_matching_files b))) ∧
  files after.2 !! (str year +:+ "_failed_to_read_files.txt")
    = fs !! (str year +:+ "_failed_to_read_files.txt").
Proof.
  intros Hwalk Hq after. subst after.
  unfold process_directory, lift. unfold mbind at 1, IO_bind at 1.
  rewrite Hwalk. unfold mbind, IO_bind. rewrite write_or_remove_spec.
  destruct (non_matching_files b) as [|n ns] eqn:Hn; [by cbn in Hq; lia|].
  cbn [written]. rewrite Nat.min_l by lia.
  rewrite decide_False by lia. cbn [fst snd files].
  split; [done|]. split.
  - by rewrite lookup_insert_eq.
  - rewrite lookup_insert_ne; [done|]. apply report_names_differ.
Qed.

Lemma failed_write_keeps_second_report_witness :
  let after :=
    process_directory Strptime.strptime example_self example_world "2020" 2020
      {| files := {[ "2020_failed_to_read_files.txt" := "stale" ]};
         quota := Some 15 |} in
  after.1 = Raise OSError ∧
  files after.2 !! (str 2020 +:+ "_non_matching_files.txt")
    = Some (first_chars 15 (lines_text ["2020/a.jpg"; "2020/b.jpg"])) ∧
  files after.2 !! (str 2020 +:+ "_failed_to_read_files.txt")
    = ({[ "2020_failed_to_read_files.txt" := "stale" ]} : gmap string string)
        !! (str 2020 +:+ "_failed_to_read_files.txt").
Proof.
  refine (failed_write_keeps_second_report Strptime.strptime
            example_self example_world "2020" 2020
            {[ "2020_failed_to_read_files.txt" := "stale" ]} 15
            {| matching_files := ["2020/v.mp4"];
               non_matching_files := ["2020/a.jpg"; "2020/b.jpg"];
               failed_to_read_files :=
                 ["2020/w.avi (error code: INVALID_TIMESTAMP_FORMAT)";
                  "2020/x.bmp (error code: FAILED_TO_READ)"] |}
            _ _).
  - vm_compute. reflexivity.
  - vm_compute. lia.
Defined.

(** A report cut inside an entry: with room for fifteen characters the
    non-matching report of the example archive ends after the year of its
    second entry. *)
Example example_report_cut_inside_entry :
  first_chars 15 (lines_text ["2020/a.jpg"; "2020/b.jpg"])
  = "2020/a.jpg" +:+ nl +:+ "2020".
Proof. reflexivity. Qed.

(** A run for one year never touches the reports of another year, whatever
    the walk finds and whether or not the device fails: the names written
    from [str(year)] are different for different years. *)
Theorem other_years_reports_untouched
    (strptime : string → string → option datetime)
    (self : MetadataProcessor) (w : World) (search_path : string)
    (year year' : Z) (d : Disk) :
  year' ≠ year →
  let after := process_directory strptime self w search_path year d in
  files after.2 !! (str year' +:+ "_non_matching_files.txt")
    = files d !! (str year' +:+ "_non_matching_files.txt") ∧
  files after.2 !! (str year' +:+ "_failed_to_read_files.txt")
    = files d !! (str year' +:+ "_failed_to_read_files.txt").
Proof.
  intros Hyear after. subst after.
  split; apply process_directory_frame; intros H;
    by apply report_names_of_years in H.
Qed.

Lemma other_years_reports_untouched_witness :
  files
    (process_directory Strptime.strptime example_self example_world "2020" 2020
       {| files := {[ "2021_non_matching_files.txt" := "2021/a.jpg" +:+ nl ]};
          quota := None |}).2
    !! (str 2021 +:+ "_non_matching_files.txt")
  = ({[ "2021_non_matching_files.txt" := "2021/a.jpg" +:+ nl ]}
       : gmap string string) !! (str 2021 +:+ "_non_matching_files.txt").
Proof.
  refine (proj1 (other_years_reports_untouched Strptime.strptime example_self
                   example_world "2020" 2020 2021
                   {| files := {[ "2021_non_matching_files.txt" := "2021/a.jpg" +:+ nl ]};
                      quota := None |} _)).
  discriminate.
Defined.

(** ** Further properties: the command line *)

Lemma for_each_ext {A : Type} (xs : list A) (body body' : A → IO unit) :
  (∀ x d, x ∈ xs → body x d = body' x d) →
  ∀ d, for_each xs body d = for_each xs body' d.
Proof.
  induction xs as [|x xs IH]; intros Hext d; [done|].
  cbn [for_each]. unfold mbind, IO_bind. rewrite (Hext x d) by left.
  destruct (body' x d) as [[[]|e] d']; [|done].
  apply IH. intros y d'' Hy. apply Hext. by right.
Qed.

Lemma elem_of_sorted (xs : list string) (x : string) : x ∈ sorted xs ↔ x ∈ xs.
Proof. unfold sorted. by rewrite merge_sort_Permutation. Qed.

Lemma isdigit_chars (s : string) :
  isdigit s = true → chars_in unicode_digit s = true ∧ s ≠ "".
Proof.
  unfold isdigit. intros [Hne Hd]%andb_true_iff. split; [done|].
  apply negb_true_iff in Hne. by apply bool_decide_eq_false in Hne.
Qed.

(** What is known of a character that [isdigit] accepts. *)
Lemma unicode_digit_facts (c : ascii) :
  unicode_digit c = true →
  int_space c = false ∧
  Ascii.eqb c "_" = false ∧ Ascii.eqb c "-" = false ∧
  Ascii.eqb c "+" = false ∧ Ascii.eqb c "/" = false.
Proof.
  destruct c as [[] [] [] [] [] [] [] []]; intros H; vm_compute in H;
    try discriminate H; repeat split.
Qed.

(** A name that [isdigit] accepts is its own base name in a joined path. *)
Lemma basename_join_isdigit (path dirname : string) :
  isdigit dirname = true →
  os_path_basename (os_path_join path dirname) = dirname.
Proof.
  intros [Hd _]%isdigit_chars. apply basename_join.
  apply (chars_in_impl unicode_digit); [|exact Hd]. cbv beta. intros c Hc.
  by destruct (unicode_digit_facts c Hc) as (_ & _ & _ & _ & ->).
Qed.

(** The year read back from the path of a year directory whose name is
    written with the digits 0 to 9. *)
Lemma year_for_path_join (path dirname : string) :
  isdigit dirname = true →
  chars_in Strptime.digit dirname = true →
  int dirname = Ret (year_for_path (os_path_join path dirname)).
Proof.
  intros Hdigit Hd. unfold year_for_path.
  rewrite basename_join_isdigit by done.
  apply isdigit_chars in Hdigit as [_ Hne].
  by destruct (int_digits dirname Hd Hne) as [n ->].
Qed.




Section MainFacts.

Context (TAGS : list (Z * string)).
Context (strptime : string → string → option datetime).
Context (w : World) (t : Tree) (args : Namespace).

(** With [--year Y] (Y not 0) and an existing directory [path/Y], [main]
    is one run of [process_directory] on that directory with target year
    [Y]: the year read back from the directory name is the one given. *)
Theorem main_year_mode (year : Z) (d : Disk) :
  os_path_isfile t (args_path args) = false →
  args_year args = Some year →
  year ≠ 0%Z →
  path_exists t (os_path_join (args_path args) (str year)) = true →
  main TAGS strptime w t args d =
  process_directory strptime (init TAGS (default 0%Z (args_verbose args))) w
    (os_path_join (args_path args) (str year)) year d.
Proof.
  intros Hfile Hyear Hnz Hexists. unfold main, selected_directories.
  rewrite Hfile, Hyear, bool_decide_eq_true_2, Hexists by done.
  cbn [negb]. unfold lift. unfold mbind at 1, IO_bind at 1.
  change (sorted [os_path_join (args_path args) (str year)])
    with [os_path_join (args_path args) (str year)].
  cbn [for_each]. rewrite basename_join by apply str_no_slash.
  rewrite int_str. unfold mbind, IO_bind, lift.
  by destruct (process_directory _ _ _ _ _ d) as [[[]|e] d'].
Qed.

(** The modes in which [main] writes nothing: a single file is only
    examined (and the error of the extractor, if any, is passed on); a
    missing directory for the given year ends the run; a base directory
    that cannot be listed raises. In each case no report file is created,
    changed or removed. *)
Theorem main_writes_nothing :
  ∀ d : Disk,
    (os_path_isfile t (args_path args) = true →
     main TAGS strptime w t args d =
     (match get_creation_date strptime
              (init TAGS (default 0%Z (args_verbose args))) w (args_path args)
      with
      | Ret _ => Ret ()
      | Raise e => Raise e
      end, d)) ∧
    (∀ year,
       os_path_isfile t (args_path args) = false →
       args_year args = Some year → year ≠ 0%Z →
       path_exists t (os_path_join (args_path args) (str year)) = false →
       main TAGS strptime w t args d = (Ret (), d)) ∧
    (∀ e,
       os_path_isfile t (args_path args) = false →
       args_year args = None ∨ args_year args = Some 0%Z →
       os_listdir t (args_path args) = Raise e →
       main TAGS strptime w t args d = (Raise e, d)).
Proof.
  intros d. repeat split.
  - intros Hfile. unfold main. rewrite Hfile.
    unfold lift, mbind, IO_bind.
    destruct (get_creation_date _ _ _ _) as [[r ts]|e] eqn:Hg; [|done].
    apply get_creation_date_outcome in Hg.
    case_bool_decide as Hr; [|done].
    destruct ts; [done|]. destruct Hg as [_ Hg]. by destruct (Hg Hr).
  - intros year Hfile Hyear Hnz Hexists. unfold main, selected_directories.
    by rewrite Hfile, Hyear, bool_decide_eq_true_2, Hexists by done.
  - intros e Hfile Hyear Hlist. unfold main, selected_directories.
    rewrite Hfile, Hlist.
    destruct Hyear as [->| ->]; [reflexivity|].
    rewrite bool_decide_eq_false_2 by (intros H; by apply H). reflexivity.
Qed.

(** Without [--year] (or with [--year 0], which line 257 takes as absent)
    and with every four-digit name of the base directory written with the
    digits 0 to 9, [main] processes the entries of the base directory whose
    name is four digits, and only those, each against the number its name
    spells: the name is read back from the joined path and [int] does not
    raise on it. *)
Theorem main_all_years (names : list string) :
  os_path_isfile t (args_path args) = false →
  args_year args = None ∨ args_year args = Some 0%Z →
  os_listdir t (args_path args) = Ret names →
  (∀ dirname, dirname ∈ names → year_name dirname →
     chars_in Strptime.digit dirname = true) →
  let selected :=
    sorted (os_path_join (args_path args)
              <$> filter (λ dirname, isdigit dirname = true ∧ len dirname = 4)
                    (sorted names)) in
  (∀ d, main TAGS strptime w t args d =
        for_each selected (λ full_dir_path,
          process_directory strptime
            (init TAGS (default 0%Z (args_verbose args))) w
            full_dir_path (year_for_path full_dir_path)) d) ∧
  (∀ full_dir_path, full_dir_path ∈ selected ↔
     ∃ dirname,
       dirname ∈ names ∧ year_name dirname ∧
       full_dir_path = os_path_join (args_path args) dirname) ∧
  (∀ dirname,
     dirname ∈ names → year_name dirname →
     int dirname = Ret (year_for_path (os_path_join (args_path args) dirname))).
Proof.
  intros Hfile Hyear Hlist Hdecimal selected.
  assert (∀ full, full ∈ selected ↔
            ∃ dirname, dirname ∈ names ∧ year_name dirname ∧
                       full = os_path_join (args_path args) dirname) as Hsel.
  { intros full. subst selected. rewrite elem_of_sorted, list_elem_of_fmap.
    split.
    - intros (dirname & -> & Hd). apply list_elem_of_filter in Hd as [Hy Hd].
      rewrite elem_of_sorted in Hd. exists dirname.
      split; [done|]. split; [exact Hy|done].
    - intros (dirname & Hd & Hy & ->). exists dirname. split; [done|].
      apply list_elem_of_filter. split; [exact Hy|]. by rewrite elem_of_sorted. }
  split; [|split; [done|]].
  - intros d. unfold main, selected_directories. rewrite Hfile, Hlist.
    assert (∀ d',
      (match args_year args with
       | Some year =>
           if bool_decide (year ≠ 0%Z)
           then
             if negb (path_exists t (os_path_join (args_path args) (str year)))
             then Ret None
             else Ret (Some [os_path_join (args_path args) (str year)])
           else d'
       | None => d'
       end : res (option (list string))) = d') as ->
      by (intros d'; destruct Hyear as [->| ->]; [reflexivity|];
          rewrite bool_decide_eq_false_2 by (intros H; by apply H);
          reflexivity).
    unfold lift, mbind, res_bind, IO_bind. cbv beta iota.
    apply for_each_ext. intros full d' Hfull.
    apply Hsel in Hfull as (dirname & Hin & Hy & ->).
    pose proof (Hdecimal dirname Hin Hy) as Hd. destruct Hy as [Hdigit _].
    rewrite (basename_join_isdigit (args_path args) dirname Hdigit).
    rewrite (year_for_path_join (args_path args) dirname Hdigit Hd).
    by destruct (process_directory _ _ _ _ _ d') as [[[]|e] d''].
  - intros dirname Hin Hy. pose proof (Hdecimal dirname Hin Hy) as Hd.
    destruct Hy as [Hdigit _]. by apply year_for_path_join.
Qed.


End MainFacts.

Lemma main_year_mode_witness :
  main PIL_TAGS Strptime.strptime example_world example_tree
    {| args_verbose := None; args_year := Some 2020%Z; args_path := "base" |}
    {| files := ∅; quota := None |}
  = process_directory Strptime.strptime (init PIL_TAGS 0) example_world
      "base/2020" 2020 {| files := ∅; quota := None |}.
Proof.
  apply (main_year_mode PIL_TAGS Strptime.strptime example_world example_tree
           {| args_verbose := None; args_year := Some 2020%Z;
              args_path := "base" |} 2020%Z).
  - reflexivity.
  - reflexivity.
  - discriminate.
  - reflexivity.
Defined.

Lemma main_all_years_witness :
  main PIL_TAGS Strptime.strptime example_world example_tree
    {| args_verbose := Some 1%Z; args_year := None; args_path := "base" |}
    {| files := ∅; quota := None |}
  = for_each ["base/0042"; "base/2020"; "base/2021"] (λ full_dir_path,
      process_directory Strptime.strptime (init PIL_TAGS 1) example_world
        full_dir_path (year_for_path full_dir_path))
      {| files := ∅; quota := None |}.
Proof.
  refine (proj1 (main_all_years PIL_TAGS Strptime.strptime example_world
                   example_tree
                   {| args_verbose := Some 1%Z; args_year := None;
                      args_path := "base" |}
                   ["2021"; "notes"; "0042"; "2020"; "20"; "12345"] _ _ _ _)
            {| files := ∅; quota := None |}).
  - reflexivity.
  - by left.
  - reflexivity.
  - intros dirname Hin [Hdigit Hlen].
    repeat (apply elem_of_cons in Hin as [->|Hin]; [by vm_compute|]).
    by apply elem_of_nil in Hin.
Defined.


(** In the superscript tree the year 2020 is processed first, since its
    name sorts before the superscripts: its walk finds nothing in the
    example archive and leaves no report. The run then ends in
    [ValueError]. *)
Example example_superscript_year :
  main PIL_TAGS Strptime.strptime example_world superscript_tree
    {| args_verbose := None; args_year := None; args_path := "base" |}
    {| files := ∅; quota := None |}
  = (Raise ValueError, {| files := ∅; quota := None |}).
Proof. vm_compute. reflexivity. Qed.

(** In the example tree the directory [0042] is processed against year 42,
    whose reports are named from [str(42)]. *)
Example example_year_of_leading_zeros :
  year_for_path "base/0042" = 42%Z ∧ str (year_for_path "base/0042") = "42".
Proof. split; vm_compute; reflexivity. Qed.
